(** * The tool-use tutorial agent (docs/docs/tutorials/tool_use/index.ipynb)

    A shallow embedding of the Python cells of the notebook: the evaluation
    metric, the timeout wrapper around tool calls, the bounded agent loop
    [Agent.forward], the per-example tool registry and the train/dev/test
    split, followed by the properties established about them.

    Conventions of the embedding.
    - A Python [str] is a [string]; a character is read as a code point
      below 256. Where the letter case of other characters matters, the
      string is the list of its code points (module [Wide]).
    - A Python [dict] with string keys is a [gmap string _].
    - A call that may raise returns a [PyResult]; the exception classes the
      cells can meet are the constructors of [PyExn].
    - The language model behind [dspy.ChainOfThought], the interpreter behind
      [exec], the generator behind [random.Random] and the Unicode database
      behind [str.lower] are not part of the notebook: they are parameters
      of the definitions that call them. *)

From Stdlib Require Import ZArith NArith Ascii String List Lia Bool.
From Stdlib Require Import Numbers.DecimalString.
From stdpp Require Import base option gmap strings list fin_maps.

Open Scope string_scope.

(** ** Python values and exceptions *)

(** The values a tool returns and an answer field holds. *)
Inductive PyVal : Type :=
  | VNone
  | VBool (b : bool)
  | VInt (z : Z)
  | VStr (s : string).

(** The exceptions that reach the code of the notebook. A tool's own
    exception (an instance of [Exception]) never reaches it as such: it is
    caught inside the wrapper, see [ToolRun]. *)
Inductive PyExn : Type :=
  | KeyError (key : string)
  | UnboundLocalError (name : string)
  | AssertionError (msg : string)
  | FunctionTimedOut
  | TypeError (msg : string)
  | OtherError (msg : string).

Inductive PyResult (A : Type) : Type :=
  | Return (a : A)
  | Raise (e : PyExn).
Arguments Return {A} a.
Arguments Raise {A} e.

#[export] Instance PyResult_ret : MRet PyResult := fun A a => Return a.

#[export] Instance PyResult_bind : MBind PyResult := fun A B k m =>
  match m with
  | Return a => k a
  | Raise e => Raise e
  end.

(** ** Python string methods used by the cells *)

Module PyStr.

Definition newline : ascii := ascii_of_nat 10.

Definition mem (c : ascii) (chars : string) : bool :=
  existsb (Ascii.eqb c) (list_ascii_of_string chars).

(** [s.lstrip(chars)]: drop leading characters while they are in [chars]. *)
Fixpoint lstrip (chars s : string) : string :=
  match s with
  | EmptyString => EmptyString
  | String c s' => if mem c chars then lstrip chars s' else s
  end.

(** [s.rstrip(chars)]: drop trailing characters while they are in
    [chars]; [chars] is a set of characters, not a suffix. *)
Fixpoint rstrip (chars s : string) : string :=
  match s with
  | EmptyString => EmptyString
  | String c s' =>
      match rstrip chars s' with
      | EmptyString => if mem c chars then EmptyString else String c EmptyString
      | r => String c r
      end
  end.

(** [s.strip(chars)] *)
Definition strip (chars s : string) : string := lstrip chars (rstrip chars s).

(** [s.replace(old, new)] for a one-character [old]. *)
Fixpoint replace (old : ascii) (new s : string) : string :=
  match s with
  | EmptyString => EmptyString
  | String c s' =>
      if Ascii.eqb c old then new ++ replace old new s'
      else String c (replace old new s')
  end.

(** Lower-casing of one code point below 256: A-Z, and the Latin-1
    capitals U+00C0-U+00DE except the multiplication sign U+00D7. *)
Definition is_upper (c : ascii) : bool :=
  let n := nat_of_ascii c in
  ((65 <=? n) && (n <=? 90))%nat
  || ((192 <=? n) && (n <=? 222) && negb (n =? 215))%nat.

Definition lower_char (c : ascii) : ascii :=
  if is_upper c then ascii_of_nat (nat_of_ascii c + 32) else c.

(** [s.lower()] *)
Fixpoint lower (s : string) : string :=
  match s with
  | EmptyString => EmptyString
  | String c s' => String (lower_char c) (lower s')
  end.

(** [s.removesuffix(suffix)]: drop [suffix] once when [s] ends with it. *)
Fixpoint removesuffix (suffix s : string) : string :=
  match s with
  | EmptyString => EmptyString
  | String c s' => if String.eqb s suffix then EmptyString
                   else String c (removesuffix suffix s')
  end.

(** [s.rsplit(sep, 1)[0]]: the part of [s] before the last occurrence of
    [sep], the whole of [s] when [sep] does not occur. [rsplit_head]
    returns [None] in the latter case. *)
Fixpoint rsplit_head (sep s : string) : option string :=
  match s with
  | EmptyString => None
  | String c s' =>
      match rsplit_head sep s' with
      | Some h => Some (String c h)
      | None => if String.prefix sep s then Some EmptyString else None
      end
  end.

Definition rsplit1_first (sep s : string) : string :=
  match rsplit_head sep s with
  | Some h => h
  | None => s
  end.

End PyStr.

(** [str(v)] *)
Definition py_str (v : PyVal) : string :=
  match v with
  | VNone => "None"
  | VBool true => "True"
  | VBool false => "False"
  | VInt z => NilZero.string_of_int (Z.to_int z)
  | VStr s => s
  end.

(** ** The evaluation metric *)

(** [str(x).rstrip(".0").replace(",", "").lower()] *)
Definition normalize (answer : PyVal) : string :=
  PyStr.lower (PyStr.replace "," "" (PyStr.rstrip ".0" (py_str answer))).

(** [metric(example, pred, trace=None)], on the two answer fields. *)
Definition metric (example_answer pred_answer : PyVal) : bool :=
  let gold := normalize example_answer in
  let pred := normalize pred_answer in
  String.eqb pred gold.

(** The normalisation as the specification words it: strip a trailing ".0"
    suffix and nothing more, remove the comma separators, lowercase. *)
Definition spec_normalize (answer : string) : string :=
  PyStr.lower (PyStr.replace "," "" (PyStr.removesuffix ".0" answer)).

Definition spec_metric (example_answer pred_answer : string) : bool :=
  String.eqb (spec_normalize pred_answer) (spec_normalize example_answer).

(** ** The metric on strings of any code points *)

(** The methods of [str] that [metric] calls, on a string given as the
    list of its code points. [str.lower] reads the Unicode database of the
    interpreter; the rows it reads are a parameter. *)
Module Wide.

(** The rows of the Unicode database: the full lower-case mapping of a
    code point and its properties Cased and Case_Ignorable. *)
Record Ucd : Type := {
  to_lower_full : N -> list N;
  is_cased : N -> bool;
  is_case_ignorable : N -> bool
}.

(** The code point of a character below 256. *)
Definition code (c : ascii) : N := N_of_ascii c.

Fixpoint of_string (s : string) : list N :=
  match s with
  | EmptyString => []
  | String c s' => code c :: of_string s'
  end.

Definition mem (c : N) (chars : list N) : bool := existsb (N.eqb c) chars.

(** [s.rstrip(chars)] *)
Fixpoint rstrip (chars s : list N) : list N :=
  match s with
  | [] => []
  | c :: s' =>
      match rstrip chars s' with
      | [] => if mem c chars then [] else [c]
      | r => c :: r
      end
  end.

(** [s.replace(old, new)] for a one-character [old]. *)
Fixpoint replace (old : N) (new s : list N) : list N :=
  match s with
  | [] => []
  | c :: s' =>
      if N.eqb c old then new ++ replace old new s'
      else c :: replace old new s'
  end.

(** The capital sigma U+03A3, the small sigma U+03C3 and the final small
    sigma U+03C2. *)
Definition capital_sigma : N := 931.
Definition small_sigma : N := 963.
Definition final_sigma : N := 962.

Fixpoint skip_ignorable (ucd : Ucd) (s : list N) : list N :=
  match s with
  | [] => []
  | c :: s' => if is_case_ignorable ucd c then skip_ignorable ucd s' else s
  end.

(** The lower case of a capital sigma: the final form when, case-ignorable
    characters apart, a cased character comes before it and none comes
    after it. [before] is the text before the sigma, nearest character
    first; [after] is the text after it. *)
Definition handle_capital_sigma (ucd : Ucd) (before after : list N) : N :=
  let cased_first (s : list N) :=
    match skip_ignorable ucd s with
    | c :: _ => is_cased ucd c
    | [] => false
    end in
  if cased_first before && negb (cased_first after) then final_sigma
  else small_sigma.

(** [s.lower()], from the character after [before] on. *)
Fixpoint lower_from (ucd : Ucd) (before s : list N) : list N :=
  match s with
  | [] => []
  | c :: s' =>
      (if N.eqb c capital_sigma then [handle_capital_sigma ucd before s']
       else to_lower_full ucd c)
      ++ lower_from ucd (c :: before) s'
  end.

Definition lower (ucd : Ucd) (s : list N) : list N := lower_from ucd [] s.

(** [str(x).rstrip(".0").replace(",", "").lower()] for a string [x]. *)
Definition normalize (ucd : Ucd) (answer : list N) : list N :=
  lower ucd (replace (code ",") [] (rstrip [code "."; code "0"] answer)).

(** [metric(example, pred, trace=None)], on two answers that are strings. *)
Definition metric (ucd : Ucd) (example_answer pred_answer : list N) : bool :=
  let gold := normalize ucd example_answer in
  let pred := normalize ucd pred_answer in
  bool_decide (pred = gold).

End Wide.

(** ** Tools *)

(** [pred.args], the keyword arguments of a tool call: [dict[str, Any]]. *)
Abbreviation Args := (gmap string PyVal).

(** What one call of a tool on keyword arguments does, with the time it takes in
    the units of the timeout. [Throws] is an instance of [Exception] whose
    [str] is [msg] (a call whose keywords do not fit the signature throws a
    [TypeError] this way); [Escapes] is an exception that is not an instance
    of [Exception] ([SystemExit], [KeyboardInterrupt], [GeneratorExit]);
    [Diverges] is a call that never comes back. *)
Inductive ToolRun : Type :=
  | Returns (elapsed : N) (v : PyVal)
  | Throws (elapsed : N) (msg : string)
  | Escapes (elapsed : N)
  | Diverges.

(** A Python object bound to a name: its identity, whether it is callable,
    what [inspect] reads off it, and what calling it does. *)
Record PyObj : Type := {
  obj_id : nat;
  obj_callable : bool;
  obj_name : string;
  obj_signature : string;
  obj_doc : option string;
  obj_call : Args -> ToolRun
}.

(** Calling an object that is not callable throws a [TypeError]. *)
Definition call (fn : PyObj) (kwargs : Args) : ToolRun :=
  if obj_callable fn then obj_call fn kwargs
  else Throws 0 "object is not callable".

(** [def finish(answer: str): return answer]. It takes exactly the keyword
    [answer]; any other set of keywords throws a [TypeError]: for a keyword
    other than [answer], whether or not [answer] is there too, else for the
    missing [answer]. Of several unexpected keywords Python names the first
    one of the dictionary; a [gmap] has no such order, and the text names the
    first one of [map_to_list]. *)
Definition finish_call (kwargs : Args) : ToolRun :=
  match map_to_list (delete "answer" kwargs) with
  | (keyword, _) :: _ =>
      Throws 0 ("finish() got an unexpected keyword argument '" ++ keyword ++ "'")
  | [] =>
      match kwargs !! "answer" with
      | Some answer => Returns 0 answer
      | None => Throws 0 "finish() missing 1 required positional argument: 'answer'"
      end
  end.

Definition finish : PyObj := {|
  obj_id := 0;
  obj_callable := true;
  obj_name := "finish";
  obj_signature := "(answer: str)";
  obj_doc := Some "Conclude the trajectory and return the final answer.";
  obj_call := finish_call
|}.

(** ** The timeout wrapper *)

(** The dictionary [{"return_value": ..., "errors": ...}]; [VNone] and [None]
    are Python's [None]. *)
Record FnOutput : Type := {
  return_value : PyVal;
  errors : option string
}.

(** A computation together with the time it takes. *)
Inductive Timed (A : Type) : Type :=
  | Done (elapsed : N) (a : A)
  | Never.
Arguments Done {A} elapsed a.
Arguments Never {A}.

(** The body of [wrapper], the [try] ... [except Exception as e], as the
    decorator runs it: in a thread of its own. [Some] is the dictionary the
    body returns. An exception of the tool that [except Exception] does not
    catch leaves the body and ends the thread, and the thread then has no
    result to hand over: the decorated call returns Python's [None]. *)
Definition wrapper (fn : PyObj) (kwargs : Args) : Timed (option FnOutput) :=
  match call fn kwargs with
  | Returns t v => Done t (Some {| return_value := v; errors := None |})
  | Throws t msg => Done t (Some {| return_value := VNone; errors := Some msg |})
  | Escapes t => Done t None
  | Diverges => Never
  end.

(** The decorator [@func_set_timeout(timeout)] of the func_timeout package:
    the decorated call gives the result of the call when it comes back
    within [timeout], and raises [FunctionTimedOut] in the caller
    otherwise. The decorator sits outside the [try] of [wrapper]. *)
Definition func_set_timeout {A : Type} (timeout : N) (run : Timed A) : PyResult A :=
  match run with
  | Done t a => if (timeout <? t)%N then Raise FunctionTimedOut else Return a
  | Never => Raise FunctionTimedOut
  end.

(** A call of [wrap_function_with_timeout(fn)] on keyword arguments: the
    dictionary, or [None]. *)
Definition wrap_function_with_timeout (fn : PyObj) (kwargs : Args)
  : PyResult (option FnOutput) :=
  func_set_timeout 10 (wrapper fn kwargs).

(** ** The agent *)

(** [fn_metadata(func)]. The fields of [PyObj] are what [inspect] and
    [__name__] give for a function made by [def]; a callable for which
    they raise (a built-in type, a partial) has no [PyObj]. *)
Record Metadata : Type := {
  function_name : string;
  arguments : string;
  docstring : string
}.

Definition fn_metadata (func : PyObj) : Metadata := {|
  function_name := obj_name func;
  arguments := obj_signature func;
  docstring := default "No docstring." (obj_doc func)
|}.

(** What the reasoning component returns. *)
Record Pred : Type := {
  reasoning : string;
  next_selected_fn : string;
  args : Args
}.

(** One entry of the trajectory:
    [dict(reasoning=..., selected_fn=..., args=..., **fn_output)]. *)
Record Step : Type := {
  step_reasoning : string;
  step_selected_fn : string;
  step_args : Args;
  step_return_value : PyVal;
  step_errors : option string
}.

Definition mk_step (pred : Pred) (selected_fn : string) (fn_output : FnOutput) : Step := {|
  step_reasoning := reasoning pred;
  step_selected_fn := selected_fn;
  step_args := args pred;
  step_return_value := return_value fn_output;
  step_errors := errors fn_output
|}.

(** [dspy.Prediction(answer=..., trajectory=...)] *)
Record Prediction : Type := {
  answer : PyVal;
  trajectory : list Step
}.

(** The reasoning component [self.react]: a call to the language model.
    Its first argument is the number of calls made before this one in the
    run, so that two calls on equal inputs may differ; it may raise. *)
Definition React : Type :=
  nat -> string -> list Step -> gmap string Metadata -> PyResult Pred.

Record Agent : Type := {
  max_steps : Z;
  react : React
}.

(** The normalisation of [pred.next_selected_fn]: [.strip] of the double
    quote character, then [.strip] of the single quote character. *)
Definition double_quote : string := String "034"%char EmptyString.
Definition single_quote : string := String "039"%char EmptyString.

Definition strip_quotes (name : string) : string :=
  PyStr.strip single_quote (PyStr.strip double_quote name).

Section Forward.

Variable self : Agent.
Variable question : string.
Variable functions : gmap string PyObj.

Definition tools : gmap string Metadata := fn_metadata <$> functions.

(** The local variables of [forward] that the loop changes; [fn_output]
    is [None] as long as the name is unbound. *)
Record Locals : Type := {
  loc_trajectory : list Step;
  loc_fn_output : option FnOutput
}.

(** The [for] loop over [range(self.max_steps)], from the state [st] on,
    with [fuel] iterations left and [calls] iterations begun so far.
    The result is paired with the number of iterations begun in all.
    When the wrapped call returns [None], unpacking it with [**] in the
    call of [dict] raises before anything is appended. *)
Fixpoint loop (fuel calls : nat) (st : Locals) : nat * PyResult Locals :=
  match fuel with
  | O => (calls, Return st)
  | S fuel' =>
      match react self calls question (loc_trajectory st) tools with
      | Raise e => (S calls, Raise e)
      | Return pred =>
          let selected_fn := strip_quotes (next_selected_fn pred) in
          match functions !! selected_fn with
          | None => (S calls, Raise (KeyError selected_fn))
          | Some fn =>
              match wrap_function_with_timeout fn (args pred) with
              | Raise e => (S calls, Raise e)
              | Return None =>
                  (S calls,
                   Raise (TypeError
                     "dict() argument after ** must be a mapping, not NoneType"))
              | Return (Some fn_output) =>
                  let st' := {|
                    loc_trajectory :=
                      loc_trajectory st ++ [mk_step pred selected_fn fn_output];
                    loc_fn_output := Some fn_output |} in
                  if String.eqb selected_fn "finish" then (S calls, Return st')
                  else loop fuel' (S calls) st'
              end
          end
      end
  end.

(** The [return] statement after the loop. Reading [fn_output] while it
    is unbound raises; the key ["return_value"] is always present, so the
    default of [.get] is never used. *)
Definition finalize (st : Locals) : PyResult Prediction :=
  match loc_fn_output st with
  | None => Raise (UnboundLocalError "fn_output")
  | Some fn_output =>
      Return {| answer := return_value fn_output;
                trajectory := loc_trajectory st |}
  end.

(** The rest of a run of [forward] from a state of its loop. *)
Definition forward_from (fuel calls : nat) (st : Locals) : nat * PyResult Prediction :=
  let (n, r) := loop fuel calls st in (n, r ≫= finalize).

(** [Agent.forward(question, functions)], with the number of iterations
    of the loop that the run began. *)
Definition forward : nat * PyResult Prediction :=
  forward_from (Z.to_nat (max_steps self)) 0
    {| loc_trajectory := []; loc_fn_output := None |}.

End Forward.

(** ** The tool registry of an example *)

(** The regular expression [^\s*def\s+([a-zA-Z0-9_]+)\s*\(] under
    [re.search] without flags: the anchor only matches at the start of the
    text, and since no two adjacent parts of the pattern share a character
    the greedy match is the only one. *)
Module FnName.

(** [\s] on code points below 256. *)
Definition is_space (c : ascii) : bool :=
  let n := nat_of_ascii c in
  ((9 <=? n) && (n <=? 13) || (28 <=? n) && (n <=? 32)
   || (n =? 133) || (n =? 160))%nat.

(** [[a-zA-Z0-9_]] *)
Definition is_word (c : ascii) : bool :=
  let n := nat_of_ascii c in
  ((97 <=? n) && (n <=? 122) || (65 <=? n) && (n <=? 90)
   || (48 <=? n) && (n <=? 57) || (n =? 95))%nat.

Fixpoint drop_while (p : ascii -> bool) (s : string) : string :=
  match s with
  | EmptyString => EmptyString
  | String c s' => if p c then drop_while p s' else s
  end.

Fixpoint take_while (p : ascii -> bool) (s : string) : string :=
  match s with
  | EmptyString => EmptyString
  | String c s' => if p c then String c (take_while p s') else EmptyString
  end.

(** The rest of [s] after the literal [lit], when [s] starts with it. *)
Fixpoint after (lit s : string) : option string :=
  match lit, s with
  | EmptyString, _ => Some s
  | String a lit', String c s' => if Ascii.eqb a c then after lit' s' else None
  | String _ _, EmptyString => None
  end.

(** Group 1 of the match, [None] when the pattern does not match. *)
Definition search (code : string) : option string :=
  match after "def" (drop_while is_space code) with
  | None => None
  | Some rest =>
      match rest with
      | String c _ =>
          if is_space c then
            let rest' := drop_while is_space rest in
            let name := take_while is_word rest' in
            match name, after "(" (drop_while is_space (drop_while is_word rest')) with
            | String _ _, Some _ => Some name
            | _, _ => None
            end
          else None
      | EmptyString => None
      end
  end.

End FnName.

(** The separator ["\n\n# Example usage"]. *)
Definition example_usage : string :=
  String PyStr.newline (String PyStr.newline "# Example usage").

(** [exec(code, {}, local_vars)]: the names the code binds, or the
    exception it raises. The first argument is the number of earlier calls
    of [exec], so that executing the same text twice may bind different
    objects. *)
Definition Exec : Type := nat -> string -> PyResult (gmap string PyObj).

(** One record of ToolHop.json, as far as the cells read it. *)
Record Datapoint : Type := {
  dp_question : string;
  dp_answer : PyVal;
  dp_functions : list string
}.

(** [dspy.Example(question=..., answer=..., functions=...)] *)
Record Example : Type := {
  ex_question : string;
  ex_answer : PyVal;
  ex_functions : gmap string PyObj
}.

(** The variables the registry cell updates: [func_dict] of the datapoint
    at hand, the global [fns2code] (keyed by the identity of the function
    object, by which a function made by [def] is hashed and compared) and
    the number of calls of [exec] so far. *)
Record Registry : Type := {
  func_dict : gmap string PyObj;
  fns2code : gmap nat (string * string);
  execs : nat
}.

Section Dataset.

Variable py_exec : Exec.

(** The body of the inner loop, for one [func_code]. *)
Definition add_function (func_code : string) (r : Registry) : PyResult Registry :=
  let cleaned_code := PyStr.rsplit1_first example_usage func_code in
  match FnName.search cleaned_code with
  | None => Return r
  | Some fn_name =>
      if String.eqb fn_name "" then Return r
      else
        local_vars ← py_exec (execs r) cleaned_code;
        let r1 := {| func_dict := func_dict r; fns2code := fns2code r;
                     execs := S (execs r) |} in
        match local_vars !! fn_name with
        | None => Return r1
        | Some fn_obj =>
            if obj_callable fn_obj then
              match fns2code r1 !! obj_id fn_obj with
              | Some _ =>
                  Raise (AssertionError ("Duplicate function found: " ++ fn_name))
              | None =>
                  Return {| func_dict := <[fn_name := fn_obj]> (func_dict r1);
                            fns2code := <[obj_id fn_obj := (fn_name, cleaned_code)]>
                                          (fns2code r1);
                            execs := execs r1 |}
              end
            else Return r1
        end
  end.

(** The inner loop over [datapoint["functions"]]. *)
Fixpoint add_functions (codes : list string) (r : Registry) : PyResult Registry :=
  match codes with
  | [] => Return r
  | func_code :: codes' => r' ← add_function func_code r; add_functions codes' r'
  end.

(** The body of the outer loop, for one datapoint: a fresh [func_dict],
    the inner loop, then [func_dict["finish"] = finish]. *)
Definition build_example (datapoint : Datapoint) (r : Registry)
  : PyResult (Example * Registry) :=
  r' ← add_functions (dp_functions datapoint)
         {| func_dict := ∅; fns2code := fns2code r; execs := execs r |};
  Return ({| ex_question := dp_question datapoint;
             ex_answer := dp_answer datapoint;
             ex_functions := <["finish" := finish]> (func_dict r') |}, r').

(** The outer loop: the list [examples], in the order of [data]. *)
Fixpoint build_examples (data : list Datapoint) (r : Registry)
  : PyResult (list Example) :=
  match data with
  | [] => Return []
  | datapoint :: data' =>
      '(example, r') ← build_example datapoint r;
      examples ← build_examples data' r';
      Return (example :: examples)
  end.

Definition initial_registry : Registry :=
  {| func_dict := ∅; fns2code := ∅; execs := 0 |}.

(** ** Loading and splitting the dataset *)

(** [random.Random(seed).shuffle(data)]: the list after the shuffle, a
    function of the seed and of the list. *)
Variable shuffle : Z -> list Datapoint -> list Datapoint.

(** The slice [l[lo:hi]] for [0 <= lo <= hi], and [l[lo:]]. *)
Definition slice {A : Type} (lo hi : nat) (l : list A) : list A :=
  take (hi - lo) (drop lo l).

Record Splits : Type := {
  trainset : list Example;
  devset : list Example;
  testset : list Example
}.

(** [trainset, devset, testset = examples[:100], examples[100:400], examples[400:]] *)
Definition split (examples : list Example) : Splits := {|
  trainset := slice 0 100 examples;
  devset := slice 100 400 examples;
  testset := drop 400 examples
|}.

(** The data cells in sequence: shuffle with the seed, build the
    examples, split. *)
Definition load_dataset (seed : Z) (data : list Datapoint) : PyResult Splits :=
  examples ← build_examples (shuffle seed data) initial_registry;
  Return (split examples).

End Dataset.

(** * Vocabulary of the properties and sample scenarios *)

(** Two characters that differ at most in case, for an alphabet whose small
    letters stand 32 code points after its capitals: the letters A to Z,
    and the Greek letters alpha to omega. *)
Definition ascii_capital (c : N) : Prop := (65 <= c <= 90)%N.

Definition greek_capital (c : N) : Prop := (913 <= c <= 937)%N /\ c <> 930%N.

Definition differ_in_case (capital : N -> Prop) (c d : N) : Prop :=
  c = d \/ (capital c /\ d = (c + 32)%N) \/ (capital d /\ c = (d + 32)%N).

(** What the Unicode database says of the letters A to Z and a to z. *)
Definition ascii_rows (ucd : Wide.Ucd) : Prop :=
  forall c, ascii_capital c ->
    Wide.to_lower_full ucd c = [(c + 32)%N]
    /\ Wide.to_lower_full ucd (c + 32) = [(c + 32)%N]
    /\ Wide.is_cased ucd c = true
    /\ Wide.is_cased ucd (c + 32) = true
    /\ Wide.is_case_ignorable ucd c = false
    /\ Wide.is_case_ignorable ucd (c + 32) = false.

(** What it says of the lower case of the code points below 256. *)
Definition latin1_rows (ucd : Wide.Ucd) : Prop :=
  forall c : ascii,
    Wide.to_lower_full ucd (Wide.code c) = [Wide.code (PyStr.lower_char c)].

(** The rows of the database for the code points below 256 and for the
    Greek letters from U+0391 to U+03C9; the other code points are given
    the row of a character without case. *)
Definition in_range (lo hi c : N) : bool := ((lo <=? c) && (c <=? hi))%N.

Definition ucd_rows : Wide.Ucd := {|
  Wide.to_lower_full := fun c =>
    if in_range 65 90 c
       || in_range 192 214 c || in_range 216 222 c
       || in_range 913 929 c || in_range 931 939 c
    then [(c + 32)%N] else [c];
  Wide.is_cased := fun c =>
    in_range 65 90 c || in_range 97 122 c
    || (c =? 170)%N || (c =? 181)%N || (c =? 186)%N
    || in_range 192 214 c || in_range 216 246 c || in_range 248 255 c
    || in_range 913 929 c || in_range 931 969 c;
  Wide.is_case_ignorable := fun c =>
    (c =? 39)%N || (c =? 46)%N || (c =? 58)%N || (c =? 94)%N || (c =? 96)%N
    || (c =? 168)%N || (c =? 173)%N || (c =? 175)%N || (c =? 180)%N
    || (c =? 183)%N || (c =? 184)%N
|}.

(** The Greek word for road, in capitals and in small letters without the
    final form of the sigma. *)
Definition road_in_capitals : list N := [927; 916; 927; 931]%N.

Definition road_in_small_letters : list N := [959; 948; 959; 963]%N.

(** A tool whose call comes back after 11 units of time. *)
Definition slow_tool : PyObj := {|
  obj_id := 1;
  obj_callable := true;
  obj_name := "slow";
  obj_signature := "()";
  obj_doc := None;
  obj_call := fun _ => Returns 11 (VInt 1)
|}.

(** A tool that throws at once. *)
Definition failing_tool : PyObj := {|
  obj_id := 2;
  obj_callable := true;
  obj_name := "fail";
  obj_signature := "()";
  obj_doc := None;
  obj_call := fun _ => Throws 0 "division by zero"
|}.

(** A tool that calls [sys.exit()]: it raises [SystemExit] at once. *)
Definition exiting_tool : PyObj := {|
  obj_id := 4;
  obj_callable := true;
  obj_name := "leave";
  obj_signature := "()";
  obj_doc := None;
  obj_call := fun _ => Escapes 0
|}.

(** An agent that selects the exiting tool. *)
Definition leaving_agent : Agent := {|
  max_steps := 5;
  react := fun _ _ _ _ =>
    Return {| reasoning := "leave"; next_selected_fn := "leave"; args := ∅ |}
|}.

(** Whether a call runs for longer than [timeout]. *)
Definition exceeds (timeout : N) (run : ToolRun) : Prop :=
  match run with
  | Returns t _ | Throws t _ | Escapes t => (timeout < t)%N
  | Diverges => True
  end.

(** An agent whose reasoning component selects [finish] at once, with the
    answer "4", and the prediction a run of it returns. *)
Definition answering_agent : Agent := {|
  max_steps := 5;
  react := fun _ _ _ _ =>
    Return {| reasoning := "done"; next_selected_fn := "'finish'";
              args := {[ "answer" := VStr "4" ]} |}
|}.

Definition answered_four : Prediction := {|
  answer := VStr "4";
  trajectory := [ {| step_reasoning := "done";
                     step_selected_fn := "finish";
                     step_args := {[ "answer" := VStr "4" ]};
                     step_return_value := VStr "4";
                     step_errors := None |} ]
|}.

(** The state of the loop after a step in which the tool threw [msg]. *)
Definition after_error (st : Locals) (pred : Pred) (msg : string) : Locals := {|
  loc_trajectory :=
    loc_trajectory st
    ++ [ {| step_reasoning := reasoning pred;
            step_selected_fn := strip_quotes (next_selected_fn pred);
            step_args := args pred;
            step_return_value := VNone;
            step_errors := Some msg |} ];
  loc_fn_output := Some {| return_value := VNone; errors := Some msg |}
|}.

(** An agent whose reasoning component selects [finish] without the
    keyword it needs. *)
Definition misfinishing_agent : Agent := {|
  max_steps := 5;
  react := fun _ _ _ _ =>
    Return {| reasoning := "done"; next_selected_fn := "finish"; args := ∅ |}
|}.

(** The integer 1 as a Python object: not callable. *)
Definition int_one : PyObj := {|
  obj_id := 3;
  obj_callable := false;
  obj_name := "";
  obj_signature := "";
  obj_doc := None;
  obj_call := fun _ => Throws 0 "'int' object is not callable"
|}.

(** A source text that defines [f] and then rebinds the name to 1, and an
    interpreter that runs it. *)
Definition rebinding_code : string :=
  "def f(x): return x" ++ String PyStr.newline "f = 1".

Definition rebinding_exec : Exec := fun _ _ => Return {[ "f" := int_one ]}.

(** The tool [def add(a, b): return a + b] on integers, and an interpreter
    that binds a new function object of this kind at each call. *)
Definition add_tool (id : nat) : PyObj := {|
  obj_id := id;
  obj_callable := true;
  obj_name := "add";
  obj_signature := "(a, b)";
  obj_doc := None;
  obj_call := fun kwargs =>
    match kwargs !! "a", kwargs !! "b" with
    | Some (VInt a), Some (VInt b) =>
        if (size kwargs =? 2)%nat then Returns 0 (VInt (a + b))
        else Throws 0 "add() got an unexpected keyword argument"
    | _, _ => Throws 0 "unsupported operand or missing argument"
    end
|}.

Definition adder_code : string := "def add(a, b): return a + b".

Definition adder_exec : Exec := fun n _ => Return {[ "add" := add_tool (S n) ]}.

(** Where an example comes from: the question and the answer of its
    datapoint. *)
Definition provenance (example : Example) : string * PyVal :=
  (ex_question example, ex_answer example).

Definition dp_provenance (datapoint : Datapoint) : string * PyVal :=
  (dp_question datapoint, dp_answer datapoint).

(** A small dataset, a shuffle that reverses it, and the splits the
    loading stage makes of it. *)
Definition sample_data : list Datapoint :=
  [ {| dp_question := "1 + 2?"; dp_answer := VStr "3";
       dp_functions := [adder_code] |};
    {| dp_question := "capital of France?"; dp_answer := VStr "Paris";
       dp_functions := [] |} ].

Definition sample_shuffle : Z -> list Datapoint -> list Datapoint :=
  fun _ data => reverse data.

Definition sample_splits : Splits := {|
  trainset :=
    [ {| ex_question := "capital of France?"; ex_answer := VStr "Paris";
         ex_functions := {[ "finish" := finish ]} |};
      {| ex_question := "1 + 2?"; ex_answer := VStr "3";
         ex_functions := <["finish" := finish]> {[ "add" := add_tool 1 ]} |} ];
  devset := [];
  testset := []
|}.

(** The scenario of an agent that calls [add] on 1 and 2 and then
    finishes with the sum. *)
Definition adding_agent : Agent := {|
  max_steps := 5;
  react := fun calls _ _ _ =>
    match calls with
    | O => Return {| reasoning := "add the numbers"; next_selected_fn := "add";
                     args := {[ "a" := VInt 1; "b" := VInt 2 ]} |}
    | _ => Return {| reasoning := "report"; next_selected_fn := "finish";
                     args := {[ "answer" := VStr "3" ]} |}
    end
|}.

(** ** Vocabulary of the further properties *)

(** Every character of [s] satisfies [p]. *)
Fixpoint all_chars (p : ascii -> bool) (s : string) : bool :=
  match s with
  | EmptyString => true
  | String c s' => p c && all_chars p s'
  end.

(** [s] is made of characters of [chars] only, of none of them. *)
Definition only_chars (chars s : string) : bool :=
  all_chars (fun c => PyStr.mem c chars) s.

Definition no_chars (chars s : string) : bool :=
  all_chars (fun c => negb (PyStr.mem c chars)) s.

(** The name the registry cell parses from one source text. *)
Definition parsed_name (func_code : string) : option string :=
  FnName.search (PyStr.rsplit1_first example_usage func_code).

(** The locals of [forward] before the loop, and after an iteration in
    which the call of the selected tool came back with [fn_output]. *)
Definition initial_locals : Locals :=
  {| loc_trajectory := []; loc_fn_output := None |}.

Definition record_step (st : Locals) (pred : Pred) (fn_output : FnOutput) : Locals := {|
  loc_trajectory :=
    loc_trajectory st
    ++ [mk_step pred (strip_quotes (next_selected_fn pred)) fn_output];
  loc_fn_output := Some fn_output
|}.

(** The [fn_output] dictionary a trajectory entry was made from. *)
Definition step_output (step : Step) : FnOutput :=
  {| return_value := step_return_value step; errors := step_errors step |}.

(** The registry and the prediction of the [adding_agent] scenario. *)
Definition adding_tools : gmap string PyObj :=
  <["finish" := finish]> {[ "add" := add_tool 1 ]}.

Definition added_three : Prediction := {|
  answer := VStr "3";
  trajectory :=
    [ {| step_reasoning := "add the numbers";
         step_selected_fn := "add";
         step_args := {[ "a" := VInt 1; "b" := VInt 2 ]};
         step_return_value := VInt 3;
         step_errors := None |};
      {| step_reasoning := "report";
         step_selected_fn := "finish";
         step_args := {[ "answer" := VStr "3" ]};
         step_return_value := VStr "3";
         step_errors := None |} ]
|}.

(** An agent that selects the slow tool. *)
Definition waiting_agent : Agent := {|
  max_steps := 5;
  react := fun _ _ _ _ =>
    Return {| reasoning := "wait"; next_selected_fn := "slow"; args := ∅ |}
|}.

(** The registry after a call of [exec] that registers nothing, and after
    one that registers [fn_obj] under [fn_name]. *)
Definition counted (r : Registry) : Registry := {|
  func_dict := func_dict r;
  fns2code := fns2code r;
  execs := S (execs r)
|}.

Definition registered (r : Registry) (fn_name : string) (fn_obj : PyObj)
    (cleaned_code : string) : Registry := {|
  func_dict := <[fn_name := fn_obj]> (func_dict r);
  fns2code := <[obj_id fn_obj := (fn_name, cleaned_code)]> (fns2code r);
  execs := S (execs r)
|}.

(** The registry at the start of the inner loop of a datapoint. *)
Definition fresh_func_dict (r : Registry) : Registry :=
  {| func_dict := ∅; fns2code := fns2code r; execs := execs r |}.

(** An interpreter that binds the same function object at every call, and
    a datapoint with the same source twice. *)
Definition sharing_exec : Exec := fun _ _ => Return {[ "add" := add_tool 1 ]}.

Definition doubled_datapoint : Datapoint := {|
  dp_question := "1 + 2?";
  dp_answer := VStr "3";
  dp_functions := [adder_code; adder_code]
|}.

Definition adder_datapoint : Datapoint := {|
  dp_question := "1 + 2?";
  dp_answer := VStr "3";
  dp_functions := [adder_code]
|}.

Definition adder_example : Example := {|
  ex_question := "1 + 2?";
  ex_answer := VStr "3";
  ex_functions := adding_tools
|}.

Definition adder_registry : Registry := {|
  func_dict := {[ "add" := add_tool 1 ]};
  fns2code := {[ 1%nat := ("add", adder_code) ]};
  execs := 1
|}.

(** A source that defines its own [finish], and an interpreter for it. *)
Definition own_finish : PyObj := {|
  obj_id := 7;
  obj_callable := true;
  obj_name := "finish";
  obj_signature := "(x)";
  obj_doc := None;
  obj_call := fun _ => Returns 0 (VInt 0)
|}.

Definition own_finish_code : string := "def finish(x): return 0".

Definition own_finish_exec : Exec := fun _ _ => Return {[ "finish" := own_finish ]}.

Definition own_finish_datapoint : Datapoint := {|
  dp_question := "q";
  dp_answer := VStr "a";
  dp_functions := [own_finish_code]
|}.

(** * Properties *)

(** ** The metric *)

Ltac by_cases_on_char c :=
  destruct c as [[] [] [] [] [] [] [] []]; vm_compute in *;
  try discriminate; try reflexivity; auto.

Ltac decide_codes :=
  repeat match goal with
         | |- context [N.eqb ?x ?y] => destruct (N.eqb_spec x y); [lia |]
         end.

(** *** Letter case *)

Section AsciiLetters.

Variable ucd : Wide.Ucd.
Hypothesis rows : ascii_rows ucd.

Local Abbreviation pair := (differ_in_case ascii_capital).

Lemma pair_facts c d :
  pair c d ->
  Wide.mem c [Wide.code "."; Wide.code "0"] = Wide.mem d [Wide.code "."; Wide.code "0"]
  /\ N.eqb c (Wide.code ",") = N.eqb d (Wide.code ",")
  /\ N.eqb c Wide.capital_sigma = N.eqb d Wide.capital_sigma
  /\ (N.eqb c Wide.capital_sigma = false ->
      Wide.to_lower_full ucd c = Wide.to_lower_full ucd d)
  /\ Wide.is_cased ucd c = Wide.is_cased ucd d
  /\ Wide.is_case_ignorable ucd c = Wide.is_case_ignorable ucd d.
Proof.
  intros [-> | [[Hc ->] | [Hd ->]]]; [done | |].
  - destruct (rows c Hc) as (H1 & H2 & H3 & H4 & H5 & H6).
    unfold ascii_capital, Wide.mem, Wide.capital_sigma in *. cbn.
    rewrite H1, H2, H3, H4, H5, H6. decide_codes. done.
  - destruct (rows d Hd) as (H1 & H2 & H3 & H4 & H5 & H6).
    unfold ascii_capital, Wide.mem, Wide.capital_sigma in *. cbn.
    rewrite H1, H2, H3, H4, H5, H6. decide_codes. done.
Qed.

Lemma rstrip_pairs a b :
  Forall2 pair a b ->
  Forall2 pair (Wide.rstrip [Wide.code "."; Wide.code "0"] a)
    (Wide.rstrip [Wide.code "."; Wide.code "0"] b).
Proof.
  induction 1 as [| c d a b Hcd Hab IH]; [constructor |].
  cbn [Wide.rstrip]. destruct (pair_facts c d Hcd) as (Hmem & _).
  destruct IH as [| x y l l' Hxy Hl]; [| by do 2 (constructor; [done |])].
  rewrite Hmem. destruct (Wide.mem d _); [constructor |].
  by constructor; [| constructor].
Qed.

Lemma replace_pairs a b :
  Forall2 pair a b ->
  Forall2 pair (Wide.replace (Wide.code ",") [] a)
    (Wide.replace (Wide.code ",") [] b).
Proof.
  induction 1 as [| c d a b Hcd Hab IH]; [constructor |].
  cbn [Wide.replace]. destruct (pair_facts c d Hcd) as (_ & -> & _).
  destruct (N.eqb d _); cbn; by try constructor.
Qed.

Lemma skip_pairs a b :
  Forall2 pair a b ->
  Forall2 pair (Wide.skip_ignorable ucd a) (Wide.skip_ignorable ucd b).
Proof.
  induction 1 as [| c d a b Hcd Hab IH]; [constructor |].
  cbn [Wide.skip_ignorable].
  destruct (pair_facts c d Hcd) as (_ & _ & _ & _ & _ & ->).
  destruct (Wide.is_case_ignorable ucd d); by try constructor.
Qed.

Lemma sigma_pairs before before' after after' :
  Forall2 pair before before' -> Forall2 pair after after' ->
  Wide.handle_capital_sigma ucd before after
  = Wide.handle_capital_sigma ucd before' after'.
Proof.
  intros Hb Ha. unfold Wide.handle_capital_sigma.
  assert (Hfirst : forall s s', Forall2 pair s s' ->
    match Wide.skip_ignorable ucd s with
    | c :: _ => Wide.is_cased ucd c | [] => false end
    = match Wide.skip_ignorable ucd s' with
      | c :: _ => Wide.is_cased ucd c | [] => false end).
  { intros s s' Hs. destruct (skip_pairs s s' Hs) as [| c d ? ? Hcd _]; [done |].
    by destruct (pair_facts c d Hcd) as (_ & _ & _ & _ & -> & _). }
  by rewrite (Hfirst _ _ Hb), (Hfirst _ _ Ha).
Qed.

Lemma lower_pairs s s' : forall before before',
  Forall2 pair before before' -> Forall2 pair s s' ->
  Wide.lower_from ucd before s = Wide.lower_from ucd before' s'.
Proof.
  intros before before' Hb Hs. revert before before' Hb.
  induction Hs as [| c d s s' Hcd Hs IH]; intros before before' Hb; [done |].
  cbn [Wide.lower_from].
  destruct (pair_facts c d Hcd) as (_ & _ & Hsigma & Hlow & _).
  rewrite (IH (c :: before) (d :: before')) by by constructor.
  rewrite <- Hsigma. destruct (N.eqb c Wide.capital_sigma).
  - by rewrite (sigma_pairs before before' s s').
  - by rewrite Hlow.
Qed.

Lemma normalize_pairs a b :
  Forall2 pair a b -> Wide.normalize ucd a = Wide.normalize ucd b.
Proof.
  intros H. unfold Wide.normalize, Wide.lower.
  apply lower_pairs; [constructor |]. by apply replace_pairs, rstrip_pairs.
Qed.

End AsciiLetters.

Lemma ucd_rows_ascii : ascii_rows ucd_rows.
Proof.
  intros c Hc. unfold ascii_capital in Hc.
  unfold ucd_rows, in_range; cbn.
  repeat match goal with
         | |- context [N.leb ?x ?y] => destruct (N.leb_spec x y); try lia
         | |- context [N.eqb ?x ?y] => destruct (N.eqb_spec x y); try lia
         end; cbn; done.
Qed.

(** *** The metric on strings of code points below 256 *)

Lemma code_inj c d : Wide.code c = Wide.code d -> c = d.
Proof.
  intros H. apply (f_equal ascii_of_N) in H.
  unfold Wide.code in H. by rewrite !ascii_N_embedding in H.
Qed.

Lemma of_string_inj a : forall b, Wide.of_string a = Wide.of_string b -> a = b.
Proof.
  induction a as [| c a IH]; intros [| d b]; cbn; try done.
  intros [= Hc Hab]. f_equal; [by apply code_inj | by apply IH].
Qed.

Lemma code_facts c :
  Wide.mem (Wide.code c) [Wide.code "."; Wide.code "0"] = PyStr.mem c ".0"
  /\ N.eqb (Wide.code c) (Wide.code ",") = Ascii.eqb c ","
  /\ N.eqb (Wide.code c) Wide.capital_sigma = false.
Proof. by_cases_on_char c. Qed.

Lemma rstrip_of_string s :
  Wide.rstrip [Wide.code "."; Wide.code "0"] (Wide.of_string s)
  = Wide.of_string (PyStr.rstrip ".0" s).
Proof.
  induction s as [| c s IH]; [done |].
  cbn [Wide.of_string Wide.rstrip PyStr.rstrip]. rewrite IH.
  destruct (code_facts c) as (-> & _).
  destruct (PyStr.rstrip ".0" s); cbn [Wide.of_string]; [| done].
  by destruct (PyStr.mem c ".0").
Qed.

Lemma replace_of_string s :
  Wide.replace (Wide.code ",") [] (Wide.of_string s)
  = Wide.of_string (PyStr.replace "," "" s).
Proof.
  induction s as [| c s IH]; [done |].
  cbn [Wide.of_string Wide.replace PyStr.replace]. rewrite IH.
  destruct (code_facts c) as (_ & -> & _).
  by destruct (Ascii.eqb c ",").
Qed.

Lemma lower_of_string ucd s : forall before,
  latin1_rows ucd ->
  Wide.lower_from ucd before (Wide.of_string s) = Wide.of_string (PyStr.lower s).
Proof.
  intros before Hrows. revert before.
  induction s as [| c s IH]; intros before; [done |].
  cbn [Wide.of_string Wide.lower_from PyStr.lower].
  destruct (code_facts c) as (_ & _ & ->). by rewrite Hrows, IH.
Qed.

(** On strings of code points below 256 the two forms of the metric
    agree. *)
Lemma metric_of_string ucd a b :
  latin1_rows ucd ->
  Wide.metric ucd (Wide.of_string a) (Wide.of_string b) = metric (VStr a) (VStr b).
Proof.
  intros Hrows. unfold Wide.metric, Wide.normalize, Wide.lower, metric, normalize.
  cbn [py_str].
  rewrite !rstrip_of_string, !replace_of_string, !lower_of_string by done.
  destruct (String.eqb_spec
              (PyStr.lower (PyStr.replace "," "" (PyStr.rstrip ".0" b)))
              (PyStr.lower (PyStr.replace "," "" (PyStr.rstrip ".0" a))))
    as [-> | Hne].
  - by apply bool_decide_eq_true.
  - apply bool_decide_eq_false. by intros ?%of_string_inj.
Qed.

Lemma ucd_rows_latin1 : latin1_rows ucd_rows.
Proof. intros c. by_cases_on_char c. Qed.




(** C2: on the gold answer "100" and the prediction "1" the metric of the
    notebook answers true, although the two strings differ after the
    normalisation the specification describes: [rstrip(".0")] removes every
    trailing '.' and '0', not the suffix ".0". *)
Theorem metric_strips_more_than_suffix :
  metric (VStr "100") (VStr "1") = true
  /\ spec_metric "100" "1" = false
  /\ normalize (VStr "100") = "1"
  /\ spec_normalize "100" = "100".
Proof. repeat split; reflexivity. Qed.

(** ** The timeout wrapper *)


Lemma wrap_returns fn kwargs t v :
  call fn kwargs = Returns t v -> (t <= 10)%N ->
  wrap_function_with_timeout fn kwargs
  = Return (Some {| return_value := v; errors := None |}).
Proof.
  unfold wrap_function_with_timeout, wrapper, func_set_timeout.
  intros -> Ht. by apply N.ltb_ge in Ht as ->.
Qed.

Lemma wrap_throws fn kwargs t msg :
  call fn kwargs = Throws t msg -> (t <= 10)%N ->
  wrap_function_with_timeout fn kwargs
  = Return (Some {| return_value := VNone; errors := Some msg |}).
Proof.
  unfold wrap_function_with_timeout, wrapper, func_set_timeout.
  intros -> Ht. by apply N.ltb_ge in Ht as ->.
Qed.

Lemma wrap_times_out fn kwargs :
  exceeds 10 (call fn kwargs) ->
  wrap_function_with_timeout fn kwargs = Raise FunctionTimedOut.
Proof.
  unfold wrap_function_with_timeout, wrapper, func_set_timeout, exceeds.
  destruct (call fn kwargs) as [t v | t msg | t |]; [| | | done];
    by intros ->%N.ltb_lt.
Qed.

Lemma wrap_escapes fn kwargs t :
  call fn kwargs = Escapes t -> (t <= 10)%N ->
  wrap_function_with_timeout fn kwargs = Return None.
Proof.
  unfold wrap_function_with_timeout, wrapper, func_set_timeout.
  intros -> Ht. by apply N.ltb_ge in Ht as ->.
Qed.



(** ** The agent loop *)

Section ForwardFacts.

Variable self : Agent.
Variable question : string.
Variable functions : gmap string PyObj.

Lemma loop_bounds fuel : forall calls st,
  (calls <= fst (loop self question functions fuel calls st) <= calls + fuel)%nat
  /\ forall st', snd (loop self question functions fuel calls st) = Return st' ->
       length (loc_trajectory st')
       = (length (loc_trajectory st)
          + (fst (loop self question functions fuel calls st) - calls))%nat
       /\ (fst (loop self question functions fuel calls st) = calls -> st' = st).
Proof.
  induction fuel as [| fuel IH]; intros calls st; cbn [loop].
  - cbn. split; [lia |]. intros st' [= <-]. split; [lia | done].
  - destruct (react self calls question (loc_trajectory st) (tools functions))
      as [pred | e]; [| cbn; split; [lia | discriminate]].
    destruct (functions !! strip_quotes (next_selected_fn pred))
      as [fn |]; [| cbn; split; [lia | discriminate]].
    destruct (wrap_function_with_timeout fn (args pred))
      as [[fn_output |] | e]; [| cbn; split; [lia | discriminate] ..].
    destruct (String.eqb _ "finish").
    + cbn. split; [lia |]. intros st' [= <-]. cbn.
      rewrite length_app. cbn. split; lia.
    + match goal with |- context [loop _ _ _ fuel (S calls) ?s] =>
        destruct (IH (S calls) s) as [Hn Hst] end.
      split; [lia |]. intros st' Hret.
      destruct (Hst st' Hret) as [Hlen _]. cbn in Hlen.
      rewrite length_app in Hlen. cbn in Hlen. split; lia.
Qed.

End ForwardFacts.

(** C3: a run of [forward] begins at most [max_steps] iterations of its
    loop, whatever the reasoning component answers, and a trajectory it
    returns has at most [max_steps] entries. *)
Theorem forward_bounded_by_max_steps (self : Agent) (question : string)
    (functions : gmap string PyObj) :
  (fst (forward self question functions) <= Z.to_nat (max_steps self))%nat
  /\ forall p, snd (forward self question functions) = Return p ->
       (Z.of_nat (length (trajectory p)) <= max_steps self)%Z.
Proof.
  unfold forward, forward_from.
  set (st0 := {| loc_trajectory := []; loc_fn_output := None |}).
  destruct (loop_bounds self question functions (Z.to_nat (max_steps self)) 0 st0)
    as [Hn Hst].
  destruct (loop self question functions (Z.to_nat (max_steps self)) 0 st0)
    as [n r]. cbn in *.
  split; [lia |]. intros p Hp.
  destruct r as [st' | e]; [| discriminate]. cbn in Hp.
  destruct (Hst st' eq_refl) as [Hlen Hsame].
  unfold finalize in Hp.
  destruct (loc_fn_output st') as [fn_output |] eqn:Hout; [| discriminate].
  injection Hp as <-. cbn.
  destruct n as [| n]; [| lia].
  rewrite (Hsame eq_refl) in Hout. discriminate Hout.
Qed.

Lemma forward_bounded_by_max_steps_witness :
  snd (forward answering_agent "2 + 2?" {[ "finish" := finish ]})
  = Return answered_four
  /\ (Z.of_nat (length (trajectory answered_four)) <= 5)%Z.
Proof.
  split; [reflexivity |].
  exact (proj2 (forward_bounded_by_max_steps answering_agent "2 + 2?"
                  {[ "finish" := finish ]}) answered_four eq_refl).
Defined.

Lemma finish_within_timeout (kwargs : Args) :
  exists fn_output,
    wrap_function_with_timeout finish kwargs = Return (Some fn_output).
Proof.
  unfold wrap_function_with_timeout, wrapper, call, finish, finish_call; cbn.
  destruct (map_to_list (delete "answer" kwargs)) as [| [keyword ?] ?];
    [destruct (kwargs !! "answer") |]; cbn; eauto.
Qed.

Lemma finish_echoes (v : PyVal) :
  wrap_function_with_timeout finish {[ "answer" := v ]}
  = Return (Some {| return_value := v; errors := None |}).
Proof.
  unfold wrap_function_with_timeout, wrapper, call, finish, finish_call; cbn.
  by rewrite delete_singleton_eq, map_to_list_empty, lookup_singleton_eq.
Qed.



(** C5, as stated, fails, in two ways. When the tool that throws is
    [finish] (called with keywords that do not fit), the error is recorded
    but the loop stops although four steps are left. And when the exception
    of the tool is not an instance of [Exception] (here [SystemExit]), it is
    not captured: the wrapped call returns [None], no step is recorded and
    the run is aborted by a [TypeError]. *)
Lemma failed_finish_stops_the_loop :
  let st0 := {| loc_trajectory := []; loc_fn_output := None |} in
  let pred := {| reasoning := "done"; next_selected_fn := "finish"; args := ∅ |} in
  let msg := "finish() missing 1 required positional argument: 'answer'" in
  (call finish ∅ = Throws 0 msg
   /\ forward misfinishing_agent "q" {[ "finish" := finish ]}
      = (1%nat,
         Return {| answer := VNone;
                   trajectory := loc_trajectory (after_error st0 pred msg) |})
   /\ loop misfinishing_agent "q" {[ "finish" := finish ]} 5 0 st0
      <> loop misfinishing_agent "q" {[ "finish" := finish ]} 4 1
           (after_error st0 pred msg))
  /\ (call exiting_tool ∅ = Escapes 0
      /\ wrap_function_with_timeout exiting_tool ∅ = Return None
      /\ forward leaving_agent "q"
           (<["leave" := exiting_tool]> {[ "finish" := finish ]})
         = (1%nat,
            Raise (TypeError
              "dict() argument after ** must be a mapping, not NoneType"))).
Proof.
  cbv zeta. split; [| by repeat split].
  split; [reflexivity |]. split; [reflexivity |].
  vm_compute. discriminate.
Qed.

(** C5, amended: a step whose tool throws an instance of [Exception]
    within the timeout records the error string with a null return value,
    calls the tool once, and the run goes on with the next step; it ends
    with a prediction when the steps are exhausted or when the tool was
    [finish]. *)
Theorem tool_exception_is_recorded (self : Agent) (question : string)
    (functions : gmap string PyObj) (fuel calls : nat) (st : Locals)
    (pred : Pred) (fn : PyObj) (t : N) (msg : string) :
  react self calls question (loc_trajectory st) (tools functions) = Return pred ->
  functions !! strip_quotes (next_selected_fn pred) = Some fn ->
  call fn (args pred) = Throws t msg ->
  (t <= 10)%N ->
  (strip_quotes (next_selected_fn pred) <> "finish" ->
   forward_from self question functions (S fuel) calls st
   = forward_from self question functions fuel (S calls) (after_error st pred msg))
  /\ (strip_quotes (next_selected_fn pred) = "finish" \/ fuel = 0%nat ->
      forward_from self question functions (S fuel) calls st
      = (S calls,
         Return {| answer := VNone;
                   trajectory := loc_trajectory (after_error st pred msg) |})).
Proof.
  intros Hreact Hfn Hcall Ht.
  pose proof (wrap_throws fn (args pred) t msg Hcall Ht) as Hout.
  unfold forward_from. cbn [loop]. rewrite Hreact, Hfn, Hout.
  fold (after_error st pred msg).
  change {| loc_trajectory := _; loc_fn_output := _ |}
    with (after_error st pred msg).
  split.
  - intros Hne%String.eqb_neq. by rewrite Hne.
  - intros [Heq | ->].
    + apply String.eqb_eq in Heq as ->. reflexivity.
    + by destruct (String.eqb _ "finish").
Qed.

Lemma tool_exception_is_recorded_witness :
  forward {| max_steps := 1;
             react := fun _ _ _ _ =>
               Return {| reasoning := "try"; next_selected_fn := "fail";
                         args := ∅ |} |}
    "q" {[ "fail" := failing_tool ]}
  = (1%nat,
     Return {| answer := VNone;
               trajectory :=
                 [ {| step_reasoning := "try"; step_selected_fn := "fail";
                      step_args := ∅; step_return_value := VNone;
                      step_errors := Some "division by zero" |} ] |}).
Proof.
  exact (proj2 (tool_exception_is_recorded
                  {| max_steps := 1;
                     react := fun _ _ _ _ =>
                       Return {| reasoning := "try"; next_selected_fn := "fail";
                                 args := ∅ |} |}
                  "q" {[ "fail" := failing_tool ]} 0 0
                  {| loc_trajectory := []; loc_fn_output := None |}
                  {| reasoning := "try"; next_selected_fn := "fail"; args := ∅ |}
                  failing_tool 0%N "division by zero"
                  eq_refl eq_refl eq_refl ltac:(discriminate))
               (or_intror eq_refl)).
Defined.

(** C9: when the normalised name the reasoning component selects is not a
    key of [functions], the run raises [KeyError] out of [forward]: no
    step is recorded and no prediction is returned. *)
Theorem unknown_tool_raises_key_error (self : Agent) (question : string)
    (functions : gmap string PyObj) (fuel calls : nat) (st : Locals)
    (pred : Pred) :
  react self calls question (loc_trajectory st) (tools functions) = Return pred ->
  functions !! strip_quotes (next_selected_fn pred) = None ->
  forward_from self question functions (S fuel) calls st
  = (S calls, Raise (KeyError (strip_quotes (next_selected_fn pred)))).
Proof.
  intros Hreact Hfn. unfold forward_from. cbn [loop].
  by rewrite Hreact, Hfn.
Qed.

Lemma unknown_tool_raises_key_error_witness :
  forward answering_agent "2 + 2?" {[ "add" := failing_tool ]}
  = (1%nat, Raise (KeyError "finish")).
Proof.
  exact (unknown_tool_raises_key_error answering_agent "2 + 2?"
           {[ "add" := failing_tool ]} 4 0
           {| loc_trajectory := []; loc_fn_output := None |}
           {| reasoning := "done"; next_selected_fn := "'finish'";
              args := {[ "answer" := VStr "4" ]} |}
           eq_refl eq_refl).
Defined.

(** C10: with [max_steps <= 0] the loop body never runs and every run of
    [forward] raises [UnboundLocalError] on [fn_output]; a run that
    returns a prediction has [max_steps >= 1]. *)
Theorem forward_needs_a_step (self : Agent) (question : string)
    (functions : gmap string PyObj) :
  ((max_steps self <= 0)%Z ->
   forward self question functions = (0%nat, Raise (UnboundLocalError "fn_output")))
  /\ (forall p, snd (forward self question functions) = Return p ->
      (1 <= max_steps self)%Z).
Proof.
  assert (H0 : (max_steps self <= 0)%Z ->
    forward self question functions
    = (0%nat, Raise (UnboundLocalError "fn_output"))).
  { intros Hle. unfold forward.
    replace (Z.to_nat (max_steps self)) with 0%nat by lia. reflexivity. }
  split; [exact H0 |].
  intros p Hp. destruct (Z.le_gt_cases (max_steps self) 0) as [Hle | Hgt]; [| lia].
  rewrite (H0 Hle) in Hp. discriminate Hp.
Qed.

Lemma forward_needs_a_step_witness :
  forward {| max_steps := 0; react := react answering_agent |} "2 + 2?"
    {[ "finish" := finish ]}
  = (0%nat, Raise (UnboundLocalError "fn_output"))
  /\ (1 <= max_steps answering_agent)%Z.
Proof.
  split.
  - apply (proj1 (forward_needs_a_step
                    {| max_steps := 0; react := react answering_agent |}
                    "2 + 2?" {[ "finish" := finish ]})).
    reflexivity.
  - exact (proj2 (forward_needs_a_step answering_agent "2 + 2?"
                    {[ "finish" := finish ]}) answered_four eq_refl).
Defined.

(** The scenario of the specification: [add], then [finish]; the answer
    is the sum and it matches the gold answer "3.0". *)
Example add_then_finish :
  forward adding_agent "1 + 2?" (<["finish" := finish]> {[ "add" := add_tool 1 ]})
  = (2%nat,
     Return {| answer := VStr "3";
               trajectory :=
                 [ {| step_reasoning := "add the numbers";
                      step_selected_fn := "add";
                      step_args := {[ "a" := VInt 1; "b" := VInt 2 ]};
                      step_return_value := VInt 3;
                      step_errors := None |};
                   {| step_reasoning := "report";
                      step_selected_fn := "finish";
                      step_args := {[ "answer" := VStr "3" ]};
                      step_return_value := VStr "3";
                      step_errors := None |} ] |})
  /\ metric (VStr "3.0") (VStr "3") = true.
Proof. split; reflexivity. Qed.

(** ** The tool registry *)

Example search_examples :
  FnName.search "def add(a, b): return a + b" = Some "add"
  /\ FnName.search "  def  get_info_2 (x)" = Some "get_info_2"
  /\ FnName.search "import math" = None
  /\ FnName.search "class A: pass" = None
  /\ FnName.search "def (x)" = None.
Proof. repeat split; reflexivity. Qed.

Lemma search_nonempty code fn_name :
  FnName.search code = Some fn_name -> String.eqb fn_name "" = false.
Proof.
  unfold FnName.search. intros H.
  repeat match type of H with
         | match ?x with _ => _ end = _ => destruct x; try discriminate H
         | (if ?x then _ else _) = _ => destruct x; try discriminate H
         end.
  by injection H as <-.
Qed.

(** An entry from which no name is parsed leaves no trace in the registry
    of its datapoint, wherever it stands in the list. *)
Lemma unparsed_entry_is_ignored py_exec func_code before later : forall r,
  FnName.search (PyStr.rsplit1_first example_usage func_code) = None ->
  add_functions py_exec (before ++ func_code :: later) r
  = add_functions py_exec (before ++ later) r.
Proof.
  induction before as [| code before IH]; intros r Hnone; cbn.
  - unfold add_function. by rewrite Hnone.
  - destruct (add_function py_exec code r); cbn; [by apply IH | done].
Qed.




(** Every example carries the [finish] tool under the name "finish". *)
Lemma build_example_has_finish py_exec datapoint r example r' :
  build_example py_exec datapoint r = Return (example, r') ->
  ex_functions example !! "finish" = Some finish.
Proof.
  unfold build_example. destruct (add_functions _ _ _) as [r1 | e]; cbn; [| done].
  intros [= <- <-]. cbn. apply lookup_insert_eq.
Qed.

(** ** The dataset split *)

Section DatasetFacts.

Variables py_exec py_exec' : Exec.
Hypothesis same_exec : forall n code, py_exec n code = py_exec' n code.

Lemma add_function_ext func_code r :
  add_function py_exec func_code r = add_function py_exec' func_code r.
Proof. unfold add_function. by rewrite same_exec. Qed.

Lemma add_functions_ext codes : forall r,
  add_functions py_exec codes r = add_functions py_exec' codes r.
Proof.
  induction codes as [| code codes IH]; intros r; cbn; [done |].
  rewrite add_function_ext.
  destruct (add_function py_exec' code r); cbn; [apply IH | done].
Qed.

Lemma build_examples_ext data : forall r,
  build_examples py_exec data r = build_examples py_exec' data r.
Proof.
  induction data as [| datapoint data IH]; intros r; cbn; [done |].
  unfold build_example. rewrite add_functions_ext.
  destruct (add_functions py_exec' _ _); cbn; [| done]. by rewrite IH.
Qed.

End DatasetFacts.

(** The examples are built one for each datapoint, in order. *)
Lemma build_examples_provenance py_exec data : forall r examples,
  build_examples py_exec data r = Return examples ->
  provenance <$> examples = dp_provenance <$> data.
Proof.
  induction data as [| datapoint data IH]; intros r examples; cbn.
  - by intros [= <-].
  - unfold build_example.
    destruct (add_functions py_exec _ _) as [r1 | e]; cbn; [| done].
    destruct (build_examples py_exec data r1) as [examples' |] eqn:Hrest;
      cbn; [| done].
    intros [= <-]. cbn. f_equal. by apply (IH r1).
Qed.

Lemma split_provenance examples :
  provenance <$> trainset (split examples) = take 100 (provenance <$> examples)
  /\ provenance <$> devset (split examples)
     = take 300 (drop 100 (provenance <$> examples))
  /\ provenance <$> testset (split examples) = drop 400 (provenance <$> examples).
Proof.
  unfold split, slice; cbn [trainset devset testset].
  by rewrite !fmap_take, !fmap_drop.
Qed.

(** C8: two runs of the loading stage on the same seed and dataset put
    the same datapoints into each split, whatever executing the tool
    sources does: after the seeded shuffle the first 100 examples are the
    train split, the next 300 the dev split and the rest the test split;
    and when executing the sources behaves the same in both runs, the
    splits are identical. *)
Theorem splits_are_reproducible (py_exec py_exec' : Exec)
    (shuffle : Z -> list Datapoint -> list Datapoint) (seed : Z)
    (data : list Datapoint) (s s' : Splits) :
  load_dataset py_exec shuffle seed data = Return s ->
  load_dataset py_exec' shuffle seed data = Return s' ->
  let shuffled := dp_provenance <$> shuffle seed data in
  (provenance <$> trainset s = take 100 shuffled
   /\ provenance <$> devset s = take 300 (drop 100 shuffled)
   /\ provenance <$> testset s = drop 400 shuffled)
  /\ (provenance <$> trainset s' = provenance <$> trainset s
      /\ provenance <$> devset s' = provenance <$> devset s
      /\ provenance <$> testset s' = provenance <$> testset s)
  /\ ((forall n code, py_exec n code = py_exec' n code) -> s = s').
Proof.
  unfold load_dataset. intros Hs Hs'. cbv zeta.
  destruct (build_examples py_exec _ _) as [examples |] eqn:Hex; [| done].
  destruct (build_examples py_exec' _ _) as [examples' |] eqn:Hex'; [| done].
  cbn in Hs, Hs'. injection Hs as <-. injection Hs' as <-.
  apply build_examples_provenance in Hex as Hprov.
  apply build_examples_provenance in Hex' as Hprov'.
  destruct (split_provenance examples) as (Ht & Hd & Hr).
  destruct (split_provenance examples') as (Ht' & Hd' & Hr').
  rewrite Ht, Hd, Hr, Ht', Hd', Hr', Hprov, Hprov'.
  split; [done |]. split; [done |].
  intros Hsame.
  rewrite (build_examples_ext py_exec py_exec' Hsame) in Hex.
  congruence.
Qed.

Lemma splits_are_reproducible_witness :
  provenance <$> trainset sample_splits
  = take 100 (dp_provenance <$> sample_shuffle 0 sample_data)
  /\ sample_splits = sample_splits.
Proof.
  destruct (splits_are_reproducible adder_exec adder_exec sample_shuffle 0
              sample_data sample_splits sample_splits eq_refl eq_refl)
    as ((Ht & _) & _ & Hsame).
  split; [exact Ht | exact (Hsame (fun _ _ => eq_refl))].
Defined.

(** * Further properties *)

(** ** String methods *)

Lemma append_nil b : "" ++ b = b.
Proof. reflexivity. Qed.

Lemma append_cons c a b : String c a ++ b = String c (a ++ b).
Proof. reflexivity. Qed.

Ltac push_append := rewrite ?append_cons, ?append_nil in *.

Lemma append_assoc a b c : (a ++ b) ++ c = a ++ (b ++ c).
Proof. induction a as [| x a IH]; push_append; [done |]. by rewrite IH. Qed.

Lemma append_empty a : a ++ "" = a.
Proof. induction a as [| x a IH]; push_append; [done |]. by rewrite IH. Qed.

Lemma all_chars_app p a b :
  all_chars p (a ++ b) = all_chars p a && all_chars p b.
Proof.
  induction a as [| c a IH]; push_append; cbn; [done |].
  by rewrite IH, andb_assoc.
Qed.

Lemma rstrip_only chars z :
  only_chars chars z = true -> PyStr.rstrip chars z = "".
Proof.
  unfold only_chars. induction z as [| c z IH]; cbn; [done |].
  intros [Hc Hz]%andb_true_iff. by rewrite (IH Hz), Hc.
Qed.

Lemma rstrip_app_only chars a z :
  only_chars chars z = true -> PyStr.rstrip chars (a ++ z) = PyStr.rstrip chars a.
Proof.
  intros Hz. induction a as [| c a IH]; push_append; cbn.
  - by apply rstrip_only.
  - by rewrite IH.
Qed.

Lemma rstrip_none chars s :
  no_chars chars s = true -> PyStr.rstrip chars s = s.
Proof.
  unfold no_chars. induction s as [| c s IH]; cbn; [done |].
  intros [Hc Hs]%andb_true_iff. rewrite (IH Hs).
  destruct s; [| done]. by apply negb_true_iff in Hc as ->.
Qed.

Lemma rstrip_app_keep chars a b :
  PyStr.rstrip chars b <> "" ->
  PyStr.rstrip chars (a ++ b) = a ++ PyStr.rstrip chars b.
Proof.
  intros Hb. induction a as [| c a IH]; push_append; cbn; [done |].
  rewrite IH. destruct a; push_append; [| done].
  by destruct (PyStr.rstrip chars b).
Qed.

Lemma rstrip_decompose chars s :
  exists z, s = PyStr.rstrip chars s ++ z /\ only_chars chars z = true.
Proof.
  induction s as [| c s (z & Hs & Hz)]; cbn; [by exists "" |].
  destruct (PyStr.rstrip chars s) as [| d r] eqn:Hr; push_append.
  - destruct (PyStr.mem c chars) eqn:Hc.
    + exists (String c s). split; [done |]. subst z.
      unfold only_chars in *. cbn. by rewrite Hc.
    + exists z. split; [| done]. push_append. by rewrite Hs at 1.
  - exists z. split; [| done]. push_append. by rewrite Hs at 1.
Qed.

Lemma lstrip_app_only chars a s :
  only_chars chars a = true -> PyStr.lstrip chars (a ++ s) = PyStr.lstrip chars s.
Proof.
  unfold only_chars. induction a as [| c a IH]; push_append; cbn; [done |].
  intros [Hc Ha]%andb_true_iff. rewrite Hc. by apply IH.
Qed.

Lemma lstrip_none chars s :
  no_chars chars s = true -> PyStr.lstrip chars s = s.
Proof.
  unfold no_chars. destruct s as [| c s]; cbn; [done |].
  intros [Hc _]%andb_true_iff. by apply negb_true_iff in Hc as ->.
Qed.

Lemma replace_app old new a b :
  PyStr.replace old new (a ++ b) = PyStr.replace old new a ++ PyStr.replace old new b.
Proof.
  induction a as [| c a IH]; push_append; cbn; [done |].
  rewrite IH. destruct (Ascii.eqb c old); push_append; [| done].
  by rewrite append_assoc.
Qed.

Lemma lower_length s : String.length (PyStr.lower s) = String.length s.
Proof. induction s as [| c s IH]; cbn; [done |]. by rewrite IH. Qed.

Lemma append_length a b :
  String.length (a ++ b) = (String.length a + String.length b)%nat.
Proof. induction a as [| c a IH]; push_append; cbn; [done |]. by rewrite IH. Qed.

(** ** More on the metric *)

Lemma normalize_app_zeros a z :
  only_chars ".0" z = true -> normalize (VStr (a ++ z)) = normalize (VStr a).
Proof. intros Hz. unfold normalize. cbn [py_str]. by rewrite rstrip_app_only. Qed.

(** X1: Runs of the characters '0' and '.' at the end of either answer do not
    change the verdict of the metric: "1" matches "100" and "1.0.0". *)
Theorem metric_ignores_trailing_zeros_and_dots (a b z w : string) :
  only_chars ".0" z = true ->
  only_chars ".0" w = true ->
  metric (VStr (a ++ z)) (VStr (b ++ w)) = metric (VStr a) (VStr b).
Proof.
  intros Hz Hw. unfold metric. by rewrite !normalize_app_zeros.
Qed.

Lemma metric_ignores_trailing_zeros_and_dots_witness :
  metric (VStr ("25" ++ "00")) (VStr ("25" ++ ".0")) = metric (VStr "25") (VStr "25").
Proof.
  exact (metric_ignores_trailing_zeros_and_dots "25" "25" "00" ".0" eq_refl eq_refl).
Defined.

Lemma lower_char_facts c :
  PyStr.mem (PyStr.lower_char c) "ABCDEFGHIJKLMNOPQRSTUVWXYZ" = false
  /\ PyStr.mem (PyStr.lower_char c) "," = PyStr.mem c ",".
Proof. by_cases_on_char c. Qed.

Lemma replace_comma_none s : no_chars "," (PyStr.replace "," "" s) = true.
Proof.
  unfold no_chars. induction s as [| c s IH]; cbn in *; [done |].
  destruct (Ascii.eqb c ",") eqn:Hc; push_append; cbn; [done |].
  by rewrite Hc, IH.
Qed.

(** X2: The normal form the metric compares never contains a comma and never
    contains one of the letters A to Z. *)
Theorem normalize_has_no_comma_no_capital (answer : PyVal) :
  no_chars "," (normalize answer) = true
  /\ no_chars "ABCDEFGHIJKLMNOPQRSTUVWXYZ" (normalize answer) = true.
Proof.
  unfold normalize.
  pose proof (replace_comma_none (PyStr.rstrip ".0" (py_str answer))) as H.
  revert H. generalize (PyStr.replace "," "" (PyStr.rstrip ".0" (py_str answer))).
  unfold no_chars. induction s as [| c s IH]; cbn [all_chars PyStr.lower]; [done |].
  intros [Hc Hs]%andb_true_iff. destruct (IH Hs) as [IH1 IH2].
  destruct (lower_char_facts c) as [Hup Hmem].
  by rewrite Hmem, Hc, Hup, IH1, IH2.
Qed.

Lemma replace_length_le old s :
  (String.length (PyStr.replace old "" s) <= String.length s)%nat.
Proof.
  induction s as [| c s IH]; cbn; [done |].
  destruct (Ascii.eqb c old); push_append; cbn; lia.
Qed.

(** X3: A comma that follows a '0' or a '.' and is followed by such characters
    only is not ignored: "10,000" does not match "10000". *)
Theorem metric_keeps_comma_before_zeros (a : string) (c : ascii) (z : string) :
  PyStr.mem c ".0" = true ->
  only_chars ".0" z = true ->
  metric (VStr (a ++ String c ("," ++ z))) (VStr (a ++ String c z)) = false.
Proof.
  intros Hc Hz. unfold metric. apply String.eqb_neq. intros Heq.
  apply (f_equal String.length) in Heq. revert Heq.
  assert (Hcz : only_chars ".0" (String c z) = true).
  { unfold only_chars in *. cbn [all_chars]. by rewrite Hc, Hz. }
  rewrite (normalize_app_zeros a (String c z) Hcz).
  unfold normalize. cbn [py_str]. rewrite !lower_length.
  replace (a ++ String c ("," ++ z)) with ((a ++ String c ",") ++ z)
    by (by rewrite append_assoc).
  rewrite (rstrip_app_only _ _ _ Hz).
  rewrite (rstrip_app_keep ".0" a (String c ",")) by done.
  change (PyStr.rstrip ".0" (String c ",")) with (String c ",").
  rewrite replace_app, append_length.
  assert (Hlen : String.length (PyStr.replace "," "" (String c ",")) = 1%nat).
  { cbn. destruct (Ascii.eqb c ",") eqn:Hcomma; [| done].
    apply Ascii.eqb_eq in Hcomma as ->. discriminate Hc. }
  rewrite Hlen.
  destruct (rstrip_decompose ".0" a) as (z' & Ha & _).
  rewrite Ha at 2. rewrite replace_app, append_length.
  pose proof (replace_length_le "," (PyStr.rstrip ".0" a)). lia.
Qed.

Lemma metric_keeps_comma_before_zeros_witness :
  metric (VStr "10,000") (VStr "10000") = false.
Proof.
  exact (metric_keeps_comma_before_zeros "1" "0" "000" eq_refl eq_refl).
Defined.

(** ** More on the timeout wrapper *)

Lemma wrap_result_cases fn kwargs :
  (exists out, wrap_function_with_timeout fn kwargs = Return (Some out)
     /\ ~ exceeds 10 (call fn kwargs)
     /\ ((errors out = None /\ exists t, call fn kwargs = Returns t (return_value out))
         \/ (return_value out = VNone
             /\ exists t msg, call fn kwargs = Throws t msg /\ errors out = Some msg)))
  \/ (wrap_function_with_timeout fn kwargs = Return None
      /\ ~ exceeds 10 (call fn kwargs)
      /\ exists t, call fn kwargs = Escapes t)
  \/ (wrap_function_with_timeout fn kwargs = Raise FunctionTimedOut
      /\ exceeds 10 (call fn kwargs)).
Proof.
  unfold wrap_function_with_timeout, wrapper, func_set_timeout, exceeds.
  destruct (call fn kwargs) as [t v | t msg | t |]; [| | | by right; right].
  - destruct (N.ltb_spec 10 t); [by right; right | left].
    eexists; split; [done |]. split; [lia |]. left. cbn. eauto.
  - destruct (N.ltb_spec 10 t); [by right; right | left].
    eexists; split; [done |]. split; [lia |]. right. cbn. eauto.
  - destruct (N.ltb_spec 10 t); [by right; right | right; left].
    split; [done |]. split; [lia | eauto].
Qed.

(** X4: a result that the wrapped call returns comes from a call within
    the timeout. It is [None] exactly when the tool was left by an exception
    that is not an instance of [Exception]; otherwise it is a dictionary
    that never has both a non-null [errors] and a non-null [return_value],
    and whose [errors] is null exactly when the tool returned. *)
Theorem wrapped_call_result_is_well_formed (fn : PyObj) (kwargs : Args)
    (result : option FnOutput) :
  wrap_function_with_timeout fn kwargs = Return result ->
  ~ exceeds 10 (call fn kwargs)
  /\ (result = None <-> exists t, call fn kwargs = Escapes t)
  /\ (forall out, result = Some out ->
      (errors out = None \/ return_value out = VNone)
      /\ (errors out = None <-> exists t v, call fn kwargs = Returns t v)).
Proof.
  destruct (wrap_result_cases fn kwargs)
    as [(out & -> & Hin & Hout) | [(-> & Hin & t & Hcall) | [-> Hex]]];
    [| | done]; intros [= <-]; (split; [done |]).
  - split.
    + split; [done |]. intros [t Hcall].
      destruct Hout as [[_ [? H]] | [_ (? & ? & H & _)]]; congruence.
    + intros ? [= <-].
      destruct Hout as [[Herr [t Hcall]] | [Hrv (t & msg & Hcall & Herr)]].
      * split; [by left |]. split; eauto.
      * split; [by right |]. rewrite Herr, Hcall.
        split; [done |]. by intros (? & ? & ?).
  - split; [| done]. split; eauto.
Qed.

Lemma wrapped_call_result_is_well_formed_witness :
  ((None : option FnOutput) = None <-> exists t, call exiting_tool ∅ = Escapes t)
  /\ (errors {| return_value := VNone; errors := Some "division by zero" |} = None
      \/ return_value {| return_value := VNone; errors := Some "division by zero" |}
         = VNone).
Proof.
  split.
  - exact (proj1 (proj2 (wrapped_call_result_is_well_formed exiting_tool ∅ None
                           eq_refl))).
  - exact (proj1 (proj2 (proj2 (wrapped_call_result_is_well_formed failing_tool ∅
                                  (Some {| return_value := VNone;
                                           errors := Some "division by zero" |})
                                  eq_refl))
                    _ eq_refl)).
Defined.

(** ** More on the agent loop *)

(** X5: A call that exceeds the timeout aborts the whole run: [forward]
    raises [FunctionTimedOut], no step is recorded for the call and the
    trajectory so far is lost. *)
Theorem tool_timeout_aborts_the_run (self : Agent) (question : string)
    (functions : gmap string PyObj) (fuel calls : nat) (st : Locals)
    (pred : Pred) (fn : PyObj) :
  react self calls question (loc_trajectory st) (tools functions) = Return pred ->
  functions !! strip_quotes (next_selected_fn pred) = Some fn ->
  exceeds 10 (call fn (args pred)) ->
  forward_from self question functions (S fuel) calls st
  = (S calls, Raise FunctionTimedOut).
Proof.
  intros Hreact Hfn Hslow. unfold forward_from. cbn [loop].
  by rewrite Hreact, Hfn, (wrap_times_out _ _ Hslow).
Qed.

Lemma tool_timeout_aborts_the_run_witness :
  forward waiting_agent "q" (<["slow" := slow_tool]> {[ "finish" := finish ]})
  = (1%nat, Raise FunctionTimedOut).
Proof.
  exact (tool_timeout_aborts_the_run waiting_agent "q"
           (<["slow" := slow_tool]> {[ "finish" := finish ]}) 4 0 initial_locals
           {| reasoning := "wait"; next_selected_fn := "slow"; args := ∅ |}
           slow_tool eq_refl eq_refl ltac:(reflexivity)).
Defined.

Section LoopInvariant.

Variable self : Agent.
Variable question : string.
Variable functions : gmap string PyObj.

(** A property of the locals that every iteration which does not select
    [finish] keeps. *)
Variable Running : Locals -> Prop.

Hypothesis step_keeps : forall calls st pred fn fn_output,
  Running st ->
  react self calls question (loc_trajectory st) (tools functions) = Return pred ->
  functions !! strip_quotes (next_selected_fn pred) = Some fn ->
  wrap_function_with_timeout fn (args pred) = Return (Some fn_output) ->
  strip_quotes (next_selected_fn pred) <> "finish" ->
  Running (record_step st pred fn_output).

(** How the loop comes to its end: the steps are exhausted, or the last
    iteration selected [finish]. *)
Lemma loop_returns fuel : forall calls st n st',
  Running st ->
  loop self question functions fuel calls st = (n, Return st') ->
  (Running st' /\ n = (calls + fuel)%nat)
  \/ (exists st0 pred fn fn_output,
        Running st0
        /\ strip_quotes (next_selected_fn pred) = "finish"
        /\ functions !! "finish" = Some fn
        /\ wrap_function_with_timeout fn (args pred) = Return (Some fn_output)
        /\ st' = record_step st0 pred fn_output
        /\ (calls < n <= calls + fuel)%nat).
Proof.
  induction fuel as [| fuel IH]; intros calls st n st' Hrun; cbn [loop].
  - intros [= <- <-]. left. split; [done | lia].
  - destruct (react self calls question (loc_trajectory st) (tools functions))
      as [pred | e] eqn:Hreact; [| done].
    destruct (functions !! strip_quotes (next_selected_fn pred))
      as [fn |] eqn:Hfn; [| done].
    destruct (wrap_function_with_timeout fn (args pred))
      as [[fn_output |] | e] eqn:Hout; [| done ..].
    fold (record_step st pred fn_output).
    change {| loc_trajectory := _; loc_fn_output := _ |}
      with (record_step st pred fn_output).
    destruct (String.eqb_spec (strip_quotes (next_selected_fn pred)) "finish")
      as [Hfin | Hfin].
    + intros [= <- <-]. right. exists st, pred, fn, fn_output.
      rewrite Hfin in Hfn. repeat (split; [done |]). lia.
    + intros Hloop.
      destruct (IH (S calls) _ n st' (step_keeps _ _ _ _ _ Hrun Hreact Hfn Hout Hfin)
                  Hloop)
        as [[Hst' ->] | (st0 & pred0 & fn0 & out0 & H0 & H1 & H2 & H3 & H4 & H5)].
      * left. split; [done | lia].
      * right. exists st0, pred0, fn0, out0. repeat (split; [done |]). lia.
Qed.

End LoopInvariant.

(** What a run that returns a prediction went through. *)
Lemma forward_returns self question functions n p :
  forward self question functions = (n, Return p) ->
  exists st' fn_output,
    loop self question functions (Z.to_nat (max_steps self)) 0 initial_locals
    = (n, Return st')
    /\ loc_fn_output st' = Some fn_output
    /\ p = {| answer := return_value fn_output; trajectory := loc_trajectory st' |}.
Proof.
  unfold forward, forward_from. fold initial_locals.
  destruct (loop self question functions _ 0 initial_locals) as [m [st' | e]];
    cbn; [| done].
  unfold finalize. destruct (loc_fn_output st') as [fn_output |] eqn:Hout; [| done].
  intros [= <- <-]. eauto.
Qed.

(** X6: In the trajectory of a returned prediction only the last step can be
    a [finish] step. *)
Theorem finish_is_only_the_last_step (self : Agent) (question : string)
    (functions : gmap string PyObj) (n : nat) (p : Prediction) :
  forward self question functions = (n, Return p) ->
  forall k step, trajectory p !! k = Some step ->
    step_selected_fn step = "finish" -> S k = length (trajectory p).
Proof.
  intros (st' & fn_output & Hloop & _ & ->)%forward_returns k step. cbn.
  set (Running := fun st : Locals =>
         Forall (fun s => step_selected_fn s <> "finish") (loc_trajectory st)).
  assert (Hkeep : forall st pred out,
    Running st -> strip_quotes (next_selected_fn pred) <> "finish" ->
    Running (record_step st pred out)).
  { intros st pred out Hst Hne. unfold Running, record_step. cbn.
    apply Forall_app. split; [done |]. by repeat constructor. }
  assert (H0 : Running initial_locals) by constructor.
  destruct (loop_returns self question functions Running
              ltac:(eauto) _ _ _ _ _ H0 Hloop)
    as [[Hst' _] | (st0 & pred & fn & out & Hst0 & Hfin & _ & _ & -> & _)].
  - intros Hk Hsel. by destruct (proj1 (Forall_lookup _ _) Hst' k step Hk).
  - unfold record_step. cbn. intros Hk Hsel. rewrite length_app. cbn.
    destruct (decide (k < length (loc_trajectory st0))%nat) as [Hlt | Hge].
    + rewrite lookup_app_l in Hk by done.
      by destruct (proj1 (Forall_lookup _ _) Hst0 k step Hk).
    + apply lookup_lt_Some in Hk. rewrite length_app in Hk. cbn in Hk. lia.
Qed.

Lemma finish_is_only_the_last_step_witness :
  2%nat = length (trajectory added_three).
Proof.
  exact (finish_is_only_the_last_step adding_agent "1 + 2?" adding_tools 2
           added_three eq_refl 1
           {| step_reasoning := "report"; step_selected_fn := "finish";
              step_args := {[ "answer" := VStr "3" ]};
              step_return_value := VStr "3"; step_errors := None |}
           eq_refl eq_refl).
Defined.

(** X7: A run that returns a prediction recorded one step for each iteration
    it began, at least one, and it stopped either because its last step
    selected [finish] or because all [max_steps] steps were used. *)
Theorem run_ends_by_finish_or_exhaustion (self : Agent) (question : string)
    (functions : gmap string PyObj) (n : nat) (p : Prediction) :
  forward self question functions = (n, Return p) ->
  length (trajectory p) = n
  /\ (1 <= n)%nat
  /\ ((exists step, last (trajectory p) = Some step
                    /\ step_selected_fn step = "finish")
      \/ n = Z.to_nat (max_steps self)).
Proof.
  intros (st' & fn_output & Hloop & Hout & ->)%forward_returns. cbn.
  destruct (loop_bounds self question functions (Z.to_nat (max_steps self)) 0
              initial_locals) as [Hn Hst].
  rewrite Hloop in Hn, Hst. cbn in Hn, Hst.
  destruct (Hst st' eq_refl) as [Hlen Hsame].
  split; [lia |]. split.
  - destruct n as [| n]; [| lia]. rewrite (Hsame eq_refl) in Hout. done.
  - destruct (loop_returns self question functions (fun _ => True)
                ltac:(done) _ _ _ _ _ I Hloop)
      as [[_ ->] | (st0 & pred & fn & out & _ & Hfin & _ & _ & -> & _)].
    + by right.
    + left. unfold record_step. cbn. rewrite last_snoc. eauto.
Qed.

Lemma run_ends_by_finish_or_exhaustion_witness :
  length (trajectory added_three) = 2%nat.
Proof.
  exact (proj1 (run_ends_by_finish_or_exhaustion adding_agent "1 + 2?"
                  adding_tools 2 added_three eq_refl)).
Defined.

Lemma wrap_output_shape fn kwargs out :
  wrap_function_with_timeout fn kwargs = Return (Some out) ->
  errors out = None \/ return_value out = VNone.
Proof.
  destruct (wrap_result_cases fn kwargs)
    as [(out' & -> & _ & Hout) | [(-> & _) | [-> _]]]; [| done ..].
  intros [= <-]. destruct Hout as [[? _] | [? _]]; eauto.
Qed.

(** X8: The answer of a returned prediction is the [return_value] of the last
    step of its trajectory; when that step recorded an error the answer
    is [None]: the empty-string default of the [return] statement is never
    used. *)
Theorem answer_is_last_return_value (self : Agent) (question : string)
    (functions : gmap string PyObj) (n : nat) (p : Prediction) :
  forward self question functions = (n, Return p) ->
  exists step,
    last (trajectory p) = Some step
    /\ answer p = step_return_value step
    /\ (is_Some (step_errors step) -> answer p = VNone).
Proof.
  intros (st' & fn_output & Hloop & Hout & ->)%forward_returns. cbn.
  set (Running := fun st : Locals =>
         loc_fn_output st = step_output <$> last (loc_trajectory st)
         /\ Forall (fun s => step_errors s = None \/ step_return_value s = VNone)
              (loc_trajectory st)).
  assert (Hkeep : forall st pred fn out,
    Running st -> wrap_function_with_timeout fn (args pred) = Return (Some out) ->
    Running (record_step st pred out)).
  { intros st pred fn [rv err] [_ Hall] Hwrap. unfold Running, record_step. cbn.
    rewrite last_snoc. split; [done |].
    apply Forall_app. split; [done |]. constructor; [| constructor].
    apply (wrap_output_shape _ _ _ Hwrap). }
  assert (H0 : Running initial_locals) by (split; [done | constructor]).
  assert (Hend : Running st').
  { destruct (loop_returns self question functions Running
                ltac:(eauto) _ _ _ _ _ H0 Hloop)
      as [[Hst' _] | (st0 & pred & fn & out & Hst0 & _ & _ & Hwrap & -> & _)];
      eauto. }
  destruct Hend as [Hlast Hall]. rewrite Hout in Hlast.
  destruct (last (loc_trajectory st')) as [step |] eqn:Hstep; [| done].
  injection Hlast as ->. exists step. split; [done |]. split; [done |].
  cbn. intros [msg Hmsg].
  apply last_Some_elem_of in Hstep.
  destruct (proj1 (Forall_forall _ _) Hall _ Hstep); [congruence | done].
Qed.

Lemma answer_is_last_return_value_witness :
  exists step,
    last (trajectory added_three) = Some step
    /\ answer added_three = step_return_value step
    /\ (is_Some (step_errors step) -> answer added_three = VNone).
Proof.
  exact (answer_is_last_return_value adding_agent "1 + 2?" adding_tools 2
           added_three eq_refl).
Defined.

(** X9: Every step of a returned trajectory names a tool of the [functions]
    mapping, and never holds both an error and a return value. *)
Theorem recorded_steps_name_known_tools (self : Agent) (question : string)
    (functions : gmap string PyObj) (n : nat) (p : Prediction) :
  forward self question functions = (n, Return p) ->
  Forall (fun step =>
            is_Some (functions !! step_selected_fn step)
            /\ (step_errors step = None \/ step_return_value step = VNone))
    (trajectory p).
Proof.
  intros (st' & fn_output & Hloop & _ & ->)%forward_returns. cbn.
  set (Good := fun step : Step =>
         is_Some (functions !! step_selected_fn step)
         /\ (step_errors step = None \/ step_return_value step = VNone)).
  set (Running := fun st : Locals => Forall Good (loc_trajectory st)).
  assert (Hkeep : forall st pred fn out,
    Running st ->
    functions !! strip_quotes (next_selected_fn pred) = Some fn ->
    wrap_function_with_timeout fn (args pred) = Return (Some out) ->
    Running (record_step st pred out)).
  { intros st pred fn out Hst Hfn Hwrap. unfold Running, record_step. cbn.
    apply Forall_app. split; [done |]. constructor; [| constructor].
    split; cbn; [by eexists |]. apply (wrap_output_shape _ _ _ Hwrap). }
  assert (H0 : Running initial_locals) by constructor.
  destruct (loop_returns self question functions Running
              ltac:(eauto) _ _ _ _ _ H0 Hloop)
    as [[Hst' _] | (st0 & pred & fn & out & Hst0 & Hfin & Hfn & Hwrap & -> & _)];
    [done |].
  apply (Hkeep st0 pred fn out Hst0); [by rewrite Hfin | done].
Qed.

Lemma recorded_steps_name_known_tools_witness :
  Forall (fun step =>
            is_Some (adding_tools !! step_selected_fn step)
            /\ (step_errors step = None \/ step_return_value step = VNone))
    (trajectory added_three).
Proof.
  exact (recorded_steps_name_known_tools adding_agent "1 + 2?" adding_tools 2
           added_three eq_refl).
Defined.

(** X10: The loop only appends to the trajectory: the trajectory of any state
    of the loop is a prefix of the trajectory at the end. *)
Theorem trajectory_only_grows (self : Agent) (question : string)
    (functions : gmap string PyObj) (fuel calls n : nat) (st st' : Locals) :
  loop self question functions fuel calls st = (n, Return st') ->
  loc_trajectory st `prefix_of` loc_trajectory st'.
Proof.
  intros Hloop.
  set (Running := fun st1 : Locals =>
         loc_trajectory st `prefix_of` loc_trajectory st1).
  assert (Hkeep : forall st1 pred out,
    Running st1 -> Running (record_step st1 pred out)).
  { intros st1 pred out Hst1. unfold Running, record_step. cbn.
    by apply prefix_app_r. }
  assert (H0 : Running st) by (unfold Running; reflexivity).
  destruct (loop_returns self question functions Running
              ltac:(eauto) _ _ _ _ _ H0 Hloop)
    as [[Hst' _] | (st0 & pred & fn & out & Hst0 & _ & _ & _ & -> & _)];
    [done | by apply Hkeep].
Qed.

Lemma trajectory_only_grows_witness :
  [] `prefix_of` trajectory added_three.
Proof.
  exact (trajectory_only_grows adding_agent "1 + 2?" adding_tools 5 0 2
           initial_locals
           {| loc_trajectory := trajectory added_three;
              loc_fn_output := Some {| return_value := VStr "3"; errors := None |} |}
           eq_refl).
Defined.

(** ** More on the tool registry *)

Lemma add_function_cases py_exec func_code r r' :
  add_function py_exec func_code r = Return r' ->
  (parsed_name func_code = None /\ r' = r)
  \/ (exists fn_name, parsed_name func_code = Some fn_name /\ r' = counted r)
  \/ (exists fn_name fn_obj,
        parsed_name func_code = Some fn_name
        /\ obj_callable fn_obj = true
        /\ fns2code r !! obj_id fn_obj = None
        /\ r' = registered r fn_name fn_obj
                  (PyStr.rsplit1_first example_usage func_code)).
Proof.
  unfold add_function, parsed_name.
  destruct (FnName.search _) as [fn_name |] eqn:Hname; [| intros [= <-]; by left].
  rewrite (search_nonempty _ _ Hname).
  destruct (py_exec _ _) as [local_vars | e]; cbn; [| done].
  destruct (local_vars !! fn_name) as [fn_obj |];
    [| intros [= <-]; right; left; eauto].
  destruct (obj_callable fn_obj) eqn:Hcall;
    [| intros [= <-]; right; left; eauto].
  destruct (fns2code r !! obj_id fn_obj) eqn:Hnew; [done |].
  intros [= <-]. right; right. exists fn_name, fn_obj. eauto.
Qed.

Section RegistryInvariant.

Variable py_exec : Exec.
Variable codes : list string.

(** A property of the registry that a call of [exec] and a registration
    of a source of [codes] keep. *)
Variable Inv : Registry -> Prop.

Hypothesis counted_keeps : forall r, Inv r -> Inv (counted r).

Hypothesis registered_keeps : forall func_code r fn_name fn_obj,
  func_code ∈ codes -> Inv r ->
  parsed_name func_code = Some fn_name ->
  obj_callable fn_obj = true ->
  fns2code r !! obj_id fn_obj = None ->
  Inv (registered r fn_name fn_obj (PyStr.rsplit1_first example_usage func_code)).

Lemma add_functions_keeps l : forall r r',
  l ⊆ codes -> Inv r -> add_functions py_exec l r = Return r' -> Inv r'.
Proof.
  induction l as [| func_code l IH]; intros r r' Hsub Hr; cbn.
  - by intros [= <-].
  - destruct (add_function py_exec func_code r) as [r1 |] eqn:Hadd; cbn; [| done].
    apply IH; [set_solver |].
    destruct (add_function_cases _ _ _ _ Hadd)
      as [[_ ->] | [(fn_name & _ & ->) | (fn_name & fn_obj & H1 & H2 & H3 & ->)]];
      [done | by apply counted_keeps |].
    apply registered_keeps; [set_solver | done ..].
Qed.

End RegistryInvariant.

Lemma build_example_inv py_exec datapoint r example r' :
  build_example py_exec datapoint r = Return (example, r') ->
  add_functions py_exec (dp_functions datapoint) (fresh_func_dict r) = Return r'
  /\ example = {| ex_question := dp_question datapoint;
                  ex_answer := dp_answer datapoint;
                  ex_functions := <["finish" := finish]> (func_dict r') |}.
Proof.
  unfold build_example. fold (fresh_func_dict r).
  destruct (add_functions _ _ _) as [r1 |]; cbn; [| done].
  by intros [= <- <-].
Qed.

(** X12: Every tool of an example is callable, and it is registered under the
    name "finish" or under the name parsed from one of the sources of the
    datapoint. *)
Theorem example_tools_come_from_sources (py_exec : Exec) (datapoint : Datapoint)
    (r : Registry) (example : Example) (r' : Registry) :
  build_example py_exec datapoint r = Return (example, r') ->
  forall fn_name fn_obj, ex_functions example !! fn_name = Some fn_obj ->
    obj_callable fn_obj = true
    /\ (fn_name = "finish"
        \/ exists func_code, func_code ∈ dp_functions datapoint
                             /\ parsed_name func_code = Some fn_name).
Proof.
  intros [Hadd ->]%build_example_inv fn_name fn_obj. cbn.
  set (Inv := fun r1 : Registry => forall name obj,
         func_dict r1 !! name = Some obj ->
         obj_callable obj = true
         /\ exists func_code, func_code ∈ dp_functions datapoint
                              /\ parsed_name func_code = Some name).
  assert (Hr' : Inv r').
  { apply (add_functions_keeps py_exec (dp_functions datapoint) Inv)
      with (l := dp_functions datapoint) (r := fresh_func_dict r);
      [done | | done | done | done].
    intros func_code r1 name obj Hin Hr1 Hname Hcall _ name' obj'.
    unfold registered. cbn. rewrite lookup_insert.
    case_decide as Heq; [intros [= <-]; subst; eauto | apply Hr1]. }
  rewrite lookup_insert. case_decide as Heq.
  - intros [= <-]. split; [done | by left].
  - intros [Hcall Hsrc]%Hr'. eauto.
Qed.

Lemma example_tools_come_from_sources_witness :
  obj_callable (add_tool 1) = true
  /\ ("add" = "finish"
      \/ exists func_code, func_code ∈ dp_functions adder_datapoint
                           /\ parsed_name func_code = Some "add").
Proof.
  exact (example_tools_come_from_sources adder_exec adder_datapoint
           initial_registry adder_example adder_registry eq_refl
           "add" (add_tool 1) eq_refl).
Defined.

(** X13: Whatever the sources of the datapoint define, the tool registered
    under "finish" is the [finish] of the notebook (a function of that name
    defined by a source is replaced); the other names keep the object the
    inner loop registered. *)
Theorem finish_tool_is_always_injected (py_exec : Exec) (datapoint : Datapoint)
    (r : Registry) (example : Example) (r' : Registry) :
  build_example py_exec datapoint r = Return (example, r') ->
  ex_functions example !! "finish" = Some finish
  /\ forall fn_name, fn_name <> "finish" ->
       ex_functions example !! fn_name = func_dict r' !! fn_name.
Proof.
  intros [_ ->]%build_example_inv. cbn. split; [apply lookup_insert_eq |].
  intros fn_name Hne. by rewrite lookup_insert_ne.
Qed.

Lemma finish_tool_is_always_injected_witness :
  func_dict (registered initial_registry "finish" own_finish own_finish_code)
    !! "finish" = Some own_finish
  /\ <["finish" := finish]> ({[ "finish" := own_finish ]} : gmap string PyObj)
       !! "finish" = Some finish.
Proof.
  split; [reflexivity |].
  exact (proj1 (finish_tool_is_always_injected own_finish_exec own_finish_datapoint
                  initial_registry
                  {| ex_question := "q"; ex_answer := VStr "a";
                     ex_functions := <["finish" := finish]> {[ "finish" := own_finish ]} |}
                  (registered initial_registry "finish" own_finish own_finish_code)
                  eq_refl)).
Defined.

(** X14: The function objects registered for a datapoint were never recorded
    for an earlier one, [fns2code] records each of them with its name and
    its cleaned source, and nothing recorded before is lost or changed. *)
Theorem registered_functions_are_new_and_recorded (py_exec : Exec)
    (datapoint : Datapoint) (r : Registry) (example : Example) (r' : Registry) :
  build_example py_exec datapoint r = Return (example, r') ->
  fns2code r ⊆ fns2code r'
  /\ forall fn_name fn_obj, func_dict r' !! fn_name = Some fn_obj ->
       fns2code r !! obj_id fn_obj = None
       /\ exists func_code,
            func_code ∈ dp_functions datapoint
            /\ fns2code r' !! obj_id fn_obj
               = Some (fn_name, PyStr.rsplit1_first example_usage func_code).
Proof.
  intros [Hadd _]%build_example_inv.
  set (Inv := fun r1 : Registry =>
         fns2code r ⊆ fns2code r1
         /\ forall name obj, func_dict r1 !! name = Some obj ->
              fns2code r !! obj_id obj = None
              /\ exists func_code,
                   func_code ∈ dp_functions datapoint
                   /\ fns2code r1 !! obj_id obj
                      = Some (name, PyStr.rsplit1_first example_usage func_code)).
  apply (add_functions_keeps py_exec (dp_functions datapoint) Inv)
    with (l := dp_functions datapoint) (r := fresh_func_dict r);
    [done | | done | by split | done].
  intros func_code r1 name obj Hin [Hsub Hr1] Hname Hcall Hnew.
  unfold registered. split; cbn.
  - etrans; [exact Hsub | by apply insert_subseteq].
  - intros name' obj'. rewrite lookup_insert. case_decide as Heq.
    + intros [= <-]. split.
      * by eapply lookup_weaken_None.
      * exists func_code. subst. by rewrite lookup_insert_eq.
    + intros [Hold (code' & Hin' & Hcode')]%Hr1. split; [done |].
      exists code'. split; [done |].
      rewrite lookup_insert_ne; [done | congruence].
Qed.

Lemma registered_functions_are_new_and_recorded_witness :
  fns2code initial_registry !! obj_id (add_tool 1) = None
  /\ exists func_code,
       func_code ∈ dp_functions adder_datapoint
       /\ fns2code adder_registry !! obj_id (add_tool 1)
          = Some ("add", PyStr.rsplit1_first example_usage func_code).
Proof.
  exact (proj2 (registered_functions_are_new_and_recorded adder_exec
                  adder_datapoint initial_registry adder_example adder_registry
                  eq_refl)
           "add" (add_tool 1) eq_refl).
Defined.

Lemma add_functions_app py_exec before later : forall r,
  add_functions py_exec (before ++ later) r
  = add_functions py_exec before r ≫= add_functions py_exec later.
Proof.
  induction before as [| code before IH]; intros r; cbn; [done |].
  destruct (add_function py_exec code r); cbn; [apply IH | done].
Qed.

(** X15: A source whose code binds its name to a function object that is
    already recorded in [fns2code] fails the assertion, and the failure
    ends the construction of the example. *)
Theorem duplicate_function_is_fatal (py_exec : Exec) (datapoint : Datapoint)
    (r r1 : Registry) (before later : list string) (func_code fn_name : string)
    (local_vars : gmap string PyObj) (fn_obj : PyObj) :
  dp_functions datapoint = (before ++ func_code :: later)%list ->
  add_functions py_exec before (fresh_func_dict r) = Return r1 ->
  parsed_name func_code = Some fn_name ->
  py_exec (execs r1) (PyStr.rsplit1_first example_usage func_code)
  = Return local_vars ->
  local_vars !! fn_name = Some fn_obj ->
  obj_callable fn_obj = true ->
  is_Some (fns2code r1 !! obj_id fn_obj) ->
  build_example py_exec datapoint r
  = Raise (AssertionError ("Duplicate function found: " ++ fn_name)).
Proof.
  intros Hcodes Hbefore Hname Hexec Hobj Hcall [recorded Hdup].
  unfold build_example. fold (fresh_func_dict r).
  rewrite Hcodes, add_functions_app, Hbefore. cbn.
  unfold add_function. unfold parsed_name in Hname.
  rewrite Hname, (search_nonempty _ _ Hname), Hexec. cbn.
  by rewrite Hobj, Hcall, Hdup.
Qed.

Lemma duplicate_function_is_fatal_witness :
  build_example sharing_exec doubled_datapoint initial_registry
  = Raise (AssertionError "Duplicate function found: add").
Proof.
  exact (duplicate_function_is_fatal sharing_exec doubled_datapoint
           initial_registry adder_registry [adder_code] [] adder_code "add"
           {[ "add" := add_tool 1 ]} (add_tool 1)
           eq_refl eq_refl eq_refl eq_refl eq_refl eq_refl
           (ex_intro _ ("add", adder_code) eq_refl)).
Defined.

(** ** The name pattern and the cleaning of a source *)

Lemma all_chars_impl (p q : ascii -> bool) s :
  (forall c, p c = true -> q c = true) ->
  all_chars p s = true -> all_chars q s = true.
Proof.
  intros Hpq. induction s as [| c s IH]; cbn; [done |].
  intros [Hc Hs]%andb_true_iff. by rewrite (Hpq c Hc), IH.
Qed.

Lemma take_drop_while p s :
  s = FnName.take_while p s ++ FnName.drop_while p s.
Proof.
  induction s as [| c s IH]; cbn; [done |].
  destruct (p c); push_append; [by rewrite <- IH | done].
Qed.

Lemma take_while_all p s : all_chars p (FnName.take_while p s) = true.
Proof.
  induction s as [| c s IH]; cbn; [done |].
  destruct (p c) eqn:Hc; cbn; [by rewrite Hc | done].
Qed.

Lemma drop_while_app p a s :
  all_chars p a = true ->
  FnName.drop_while p (a ++ s) = FnName.drop_while p s.
Proof.
  induction a as [| c a IH]; push_append; cbn; [done |].
  intros [-> Ha]%andb_true_iff. by apply IH.
Qed.

Lemma take_while_app p a s :
  all_chars p a = true ->
  FnName.take_while p (a ++ s) = a ++ FnName.take_while p s.
Proof.
  induction a as [| c a IH]; push_append; cbn; [done |].
  intros [-> Ha]%andb_true_iff. push_append. by rewrite IH.
Qed.

Lemma after_app lit s : FnName.after lit (lit ++ s) = Some s.
Proof.
  induction lit as [| c lit IH]; push_append; cbn; [by destruct s |].
  by rewrite Ascii.eqb_refl.
Qed.

Lemma after_Some lit s t : FnName.after lit s = Some t -> s = lit ++ t.
Proof.
  revert s. induction lit as [| c lit IH]; intros s; cbn.
  - destruct s; by intros [= <-].
  - destruct s as [| d s]; [done |].
    destruct (Ascii.eqb_spec c d) as [<- | _]; [| done].
    intros ->%IH. by push_append.
Qed.

Lemma word_is_not_space c : FnName.is_word c = true -> FnName.is_space c = false.
Proof. intros H. by_cases_on_char c. Qed.

Lemma space_is_not_word c : FnName.is_space c = true -> FnName.is_word c = false.
Proof. intros H. by_cases_on_char c. Qed.

(** The scan of a run of characters that satisfy [p] stops at a text
    whose first character does not. *)
Lemma drop_while_stop p c s :
  p c = false -> FnName.drop_while p (String c s) = String c s.
Proof. intros H. cbn. by rewrite H. Qed.

Lemma take_while_stop p c s :
  p c = false -> FnName.take_while p (String c s) = "".
Proof. intros H. cbn. by rewrite H. Qed.

(** X16: [FnName.search] finds the name exactly in the texts of the shape the
    pattern describes: white space, the word def, white space (at least
    one character), the name (at least one word character), white space,
    an opening parenthesis. *)
Theorem search_matches_the_pattern (code fn_name : string) :
  FnName.search code = Some fn_name
  <-> exists ws sp sp' tail,
        code = ws ++ "def" ++ sp ++ fn_name ++ sp' ++ "(" ++ tail
        /\ all_chars FnName.is_space ws = true
        /\ all_chars FnName.is_space sp = true /\ sp <> ""
        /\ all_chars FnName.is_word fn_name = true /\ fn_name <> ""
        /\ all_chars FnName.is_space sp' = true.
Proof.
  split.
  - unfold FnName.search. intros H.
    destruct (FnName.after "def" _) as [rest |] eqn:Hdef; [| done].
    apply after_Some in Hdef.
    destruct rest as [| c rest0]; [done |].
    destruct (FnName.is_space c) eqn:Hc; [| done].
    set (rest := String c rest0) in *.
    set (rest' := FnName.drop_while FnName.is_space rest) in *.
    destruct (FnName.take_while FnName.is_word rest') as [| n0 name] eqn:Hname;
      [done |].
    destruct (FnName.after "(" _) as [tail |] eqn:Hparen; [| done].
    injection H as <-. apply after_Some in Hparen.
    exists (FnName.take_while FnName.is_space code),
      (FnName.take_while FnName.is_space rest),
      (FnName.take_while FnName.is_space
         (FnName.drop_while FnName.is_word rest')),
      tail.
    split; [| repeat split].
    + rewrite (take_drop_while FnName.is_space code) at 1. f_equal.
      rewrite Hdef. f_equal.
      rewrite (take_drop_while FnName.is_space rest) at 1. f_equal.
      fold rest'. rewrite (take_drop_while FnName.is_word rest') at 1.
      rewrite Hname. f_equal.
      rewrite (take_drop_while FnName.is_space
                 (FnName.drop_while FnName.is_word rest')) at 1.
      by rewrite Hparen.
    + apply take_while_all.
    + apply take_while_all.
    + unfold rest. cbn. by rewrite Hc.
    + rewrite <- Hname. apply take_while_all.
    + done.
    + apply take_while_all.
  - intros (ws & sp & sp' & tail & -> & Hws & Hsp & Hsp0 & Hname & Hname0 & Hsp').
    unfold FnName.search.
    rewrite (drop_while_app _ ws _ Hws).
    change ("def" ++ ?s) with (String "d" (String "e" (String "f" s))).
    rewrite drop_while_stop by done.
    change (String "d" (String "e" (String "f" ?s))) with ("def" ++ s).
    rewrite after_app.
    destruct sp as [| c sp]; [done |]. push_append.
    cbn in Hsp. apply andb_true_iff in Hsp as [Hc Hsp]. rewrite Hc.
    assert (Hskip : FnName.drop_while FnName.is_space
                      (String c (sp ++ fn_name ++ sp' ++ String "(" tail))
                    = fn_name ++ sp' ++ String "(" tail).
    { cbn. rewrite Hc, (drop_while_app _ sp _ Hsp).
      destruct fn_name as [| n0 name]; [done |]. push_append.
      cbn in Hname. apply andb_true_iff in Hname as [Hn0 _].
      by rewrite drop_while_stop by by apply word_is_not_space. }
    rewrite Hskip.
    assert (Hstop : forall p : ascii -> bool,
      (forall x, FnName.is_space x = true -> p x = false) -> p "("%char = false ->
      FnName.take_while p (sp' ++ String "(" tail) = ""
      /\ FnName.drop_while p (sp' ++ String "(" tail) = sp' ++ String "(" tail).
    { intros p Hp Hparen. destruct sp' as [| x sp']; push_append.
      - by rewrite take_while_stop, drop_while_stop.
      - cbn in Hsp'. apply andb_true_iff in Hsp' as [Hx _].
        by rewrite take_while_stop, drop_while_stop by by apply Hp. }
    destruct (Hstop FnName.is_word space_is_not_word eq_refl) as [Htake Hdrop].
    rewrite (take_while_app _ fn_name _ Hname), Htake, append_empty.
    rewrite (drop_while_app _ fn_name _ Hname), Hdrop.
    rewrite (drop_while_app _ sp' _ Hsp').
    rewrite drop_while_stop by done. cbn.
    by destruct fn_name.
Qed.

Lemma search_matches_the_pattern_witness :
  FnName.search ("  " ++ "def" ++ " " ++ "get_info" ++ " " ++ "(" ++ "x): return x")
  = Some "get_info".
Proof.
  apply (proj2 (search_matches_the_pattern
                  ("  " ++ "def" ++ " " ++ "get_info" ++ " " ++ "(" ++ "x): return x")
                  "get_info")).
  exists "  ", " ", " ", "x): return x". by repeat split.
Defined.

Lemma prefix_app sep b : String.prefix sep (sep ++ b) = true.
Proof.
  induction sep as [| c sep IH]; push_append; [by destruct b |].
  change (String.prefix (String c sep) (String c (sep ++ b)))
    with (if ascii_dec c c then String.prefix sep (sep ++ b) else false).
  by destruct (ascii_dec c c).
Qed.

Lemma prefix_Some sep s : String.prefix sep s = true -> exists t, s = sep ++ t.
Proof.
  revert s. induction sep as [| c sep IH]; intros s; [by exists s |].
  destruct s as [| d s]; [done |].
  change (String.prefix (String c sep) (String d s))
    with (if ascii_dec c d then String.prefix sep s else false).
  destruct (ascii_dec c d) as [<- | _]; [| done].
  intros [t ->]%IH. by exists t.
Qed.

Lemma rsplit_head_spec sep s :
  sep <> "" ->
  match PyStr.rsplit_head sep s with
  | Some h =>
      (exists t, s = h ++ sep ++ t)
      /\ forall a b, s = a ++ sep ++ b -> (String.length a <= String.length h)%nat
  | None => forall a b, s <> a ++ sep ++ b
  end.
Proof.
  intros Hsep. induction s as [| c s IH]; cbn [PyStr.rsplit_head].
  - intros a b H. apply (f_equal String.length) in H.
    rewrite !append_length in H. destruct sep; [done |]. cbn in H. lia.
  - destruct (PyStr.rsplit_head sep s) as [h |].
    + destruct IH as [[t ->] Hmax]. split; [by exists t |].
      intros [| x a] b; push_append; cbn; [lia |].
      intros [= _ H]. specialize (Hmax _ _ H). lia.
    + destruct (String.prefix sep (String c s)) eqn:Hpre.
      * split; [by apply prefix_Some in Hpre |].
        intros [| x a] b; push_append; cbn; [lia |].
        intros [= _ H]. by destruct (IH a b).
      * intros [| x a] b; push_append.
        -- intros H. rewrite H, prefix_app in Hpre. done.
        -- intros [= _ H]. by destruct (IH a b).
Qed.

(** X17: The cleaning of a source cuts it at the last occurrence of the
    "Example usage" separator and leaves a source without the separator
    as it is. *)
Theorem cleaned_code_cuts_the_usage_tail (func_code : string) :
  let cleaned_code := PyStr.rsplit1_first example_usage func_code in
  ((forall a b, func_code <> a ++ example_usage ++ b) -> cleaned_code = func_code)
  /\ (forall a b, func_code = a ++ example_usage ++ b ->
      (exists tail, func_code = cleaned_code ++ example_usage ++ tail)
      /\ (String.length a <= String.length cleaned_code)%nat).
Proof.
  cbv zeta. unfold PyStr.rsplit1_first.
  pose proof (rsplit_head_spec example_usage func_code ltac:(done)) as H.
  destruct (PyStr.rsplit_head example_usage func_code) as [h |].
  - destruct H as [[t Ht] Hmax]. split.
    + intros Hno. by destruct (Hno h t).
    + intros a b Hab. split; [by exists t | by apply (Hmax a b)].
  - split; [done |]. intros a b Hab. by destruct (H a b).
Qed.

Lemma cleaned_code_cuts_the_usage_tail_witness :
  PyStr.rsplit1_first example_usage "def f(x): return x" = "def f(x): return x"
  /\ (String.length adder_code
      <= String.length
           (PyStr.rsplit1_first example_usage
              (adder_code ++ example_usage ++ "add(1, 2)")))%nat.
Proof.
  split.
  - apply (proj1 (cleaned_code_cuts_the_usage_tail "def f(x): return x")).
    intros a b H.
    pose proof (rsplit_head_spec example_usage "def f(x): return x" ltac:(done)) as Hs.
    by apply (Hs a b).
  - exact (proj2 (proj2 (cleaned_code_cuts_the_usage_tail
                           (adder_code ++ example_usage ++ "add(1, 2)"))
                    adder_code "add(1, 2)" eq_refl)).
Defined.

(** ** The normalisation of the selected name *)

Lemma word_is_no_quote c :
  FnName.is_word c = true ->
  negb (PyStr.mem c double_quote) = true /\ negb (PyStr.mem c single_quote) = true.
Proof. intros H. by_cases_on_char c. Qed.

Lemma single_is_no_double c :
  PyStr.mem c single_quote = true -> negb (PyStr.mem c double_quote) = true.
Proof. intros H. by_cases_on_char c. Qed.

Lemma strip_wrapped chars a s b :
  only_chars chars a = true -> only_chars chars b = true ->
  no_chars chars s = true -> s <> "" ->
  PyStr.strip chars (a ++ s ++ b) = s.
Proof.
  intros Ha Hb Hs Hne. unfold PyStr.strip.
  replace (a ++ s ++ b) with ((a ++ s) ++ b) by apply append_assoc.
  rewrite (rstrip_app_only _ _ _ Hb).
  rewrite rstrip_app_keep; rewrite (rstrip_none _ _ Hs); [| done].
  rewrite (lstrip_app_only _ _ _ Ha). by apply lstrip_none.
Qed.

(** X18: A tool name made of word characters is recovered from any quoting of
    it by double quotes outside and single quotes inside. *)
Theorem quoted_tool_name_resolves (fn_name a b c d : string) :
  all_chars FnName.is_word fn_name = true -> fn_name <> "" ->
  only_chars double_quote a = true -> only_chars double_quote b = true ->
  only_chars single_quote c = true -> only_chars single_quote d = true ->
  strip_quotes (a ++ (c ++ fn_name ++ d) ++ b) = fn_name.
Proof.
  intros Hname Hne Ha Hb Hc Hd. unfold strip_quotes.
  assert (Hnd : no_chars double_quote fn_name = true)
    by (eapply all_chars_impl; [apply word_is_no_quote | done]).
  assert (Hns : no_chars single_quote fn_name = true)
    by (eapply all_chars_impl; [apply word_is_no_quote | done]).
  rewrite strip_wrapped; [by apply strip_wrapped | done | done | |].
  - unfold no_chars. rewrite !all_chars_app.
    rewrite (all_chars_impl _ _ c single_is_no_double Hc).
    rewrite (all_chars_impl _ _ d single_is_no_double Hd).
    unfold no_chars in Hnd. by rewrite Hnd.
  - destruct c; [by destruct fn_name | done].
Qed.

Lemma quoted_tool_name_resolves_witness :
  strip_quotes (double_quote ++ (single_quote ++ "finish" ++ single_quote) ++ double_quote)
  = "finish".
Proof.
  exact (quoted_tool_name_resolves "finish" double_quote double_quote
           single_quote single_quote eq_refl ltac:(discriminate)
           eq_refl eq_refl eq_refl eq_refl).
Defined.

(** X19: Single quotes outside double quotes are stripped, the double quotes
    are not: the name that is looked up still carries them. *)
Theorem double_quotes_inside_single_quotes_stay (fn_name : string) :
  all_chars FnName.is_word fn_name = true -> fn_name <> "" ->
  strip_quotes (single_quote ++ (double_quote ++ fn_name ++ double_quote)
                ++ single_quote)
  = double_quote ++ fn_name ++ double_quote.
Proof.
  intros Hname Hne. unfold strip_quotes.
  assert (Hns : no_chars single_quote fn_name = true)
    by (eapply all_chars_impl; [apply word_is_no_quote | done]).
  set (inner := double_quote ++ fn_name ++ double_quote).
  assert (Hkeep : PyStr.strip double_quote (single_quote ++ inner ++ single_quote)
                  = single_quote ++ inner ++ single_quote).
  { unfold PyStr.strip.
    replace (single_quote ++ inner ++ single_quote)
      with ((single_quote ++ inner) ++ single_quote) by apply append_assoc.
    rewrite rstrip_app_keep by done.
    change (PyStr.rstrip double_quote single_quote) with single_quote.
    by rewrite append_assoc. }
  rewrite Hkeep. apply strip_wrapped; [done | done | | done].
  unfold inner, no_chars. rewrite !all_chars_app.
  unfold no_chars in Hns. by rewrite Hns.
Qed.

Lemma double_quotes_inside_single_quotes_stay_witness :
  strip_quotes (single_quote ++ (double_quote ++ "finish" ++ double_quote)
                ++ single_quote)
  = double_quote ++ "finish" ++ double_quote.
Proof.
  exact (double_quotes_inside_single_quotes_stay "finish" eq_refl
           ltac:(discriminate)).
Defined.

(** ** More on the split *)

(** X21: The three splits are consecutive pieces of the list of examples: put
    together they give the list back, so no example is lost or used
    twice; with fewer than 101 examples the dev and test splits are empty. *)
Theorem split_is_a_partition (examples : list Example) :
  (trainset (split examples) ++ devset (split examples)
   ++ testset (split examples))%list = examples
  /\ length (trainset (split examples)) = (length examples `min` 100)%nat
  /\ length (devset (split examples)) = ((length examples - 100) `min` 300)%nat
  /\ length (testset (split examples)) = (length examples - 400)%nat.
Proof.
  unfold split, slice; cbn [trainset devset testset].
  change (100 - 0)%nat with 100%nat. change (400 - 100)%nat with 300%nat.
  rewrite drop_0. repeat split.
  - rewrite <- (take_drop 100 examples) at 4.
    f_equal. rewrite <- (take_drop 300 (drop 100 examples)) at 2.
    f_equal. by rewrite drop_drop.
  - rewrite length_take. lia.
  - rewrite length_take, length_drop. lia.
  - by rewrite length_drop.
Qed.
